(** * X.509 extensions: a shallow embedding of [extensions.py]

    The value classes of [src/extensions.py] are embedded as records, their
    validating constructors ([__init__]) as functions into an exception
    monad, and the two containers ([Extensions], [GeneralNames]) as lists
    with their lookup loops written out.  Arguments are taken at the types
    of the source's annotations ([bool], [typing.Optional[...]],
    [typing.FrozenSet[ReasonFlags]], ...); an iterable argument is taken
    to be a list, so that its truth value is the same before and after the
    source's [list(...)] (an iterator, which is true even when it yields
    nothing, is outside the embedding); the elements handed to
    [TLSFeature] are objects of any class, so that its [isinstance] guard
    is part of the embedding. *)

From stdpp Require Import base decidable option list countable gmap strings.
From Stdlib Require Import ZArith.

Open Scope string_scope.

(** ** Exceptions and the result of a call *)

(** Modelled from the spec: [ObjectIdentifier] lives in [x509/oid.py]; the
    spec describes it as an opaque dotted-number identifier with equality by
    dotted value. *)
Record ObjectIdentifier := { dotted_string : string }.

#[global] Instance ObjectIdentifier_eq_dec : EqDecision ObjectIdentifier.
Proof. solve_decision. Defined.

(** The exceptions raised in this file: the two builtins and
    [ExtensionNotFound], which stores the identifier that was sought. *)
Inductive exn : Type :=
| TypeError (msg : string)
| ValueError (msg : string)
| ExtensionNotFound (msg : string) (oid : ObjectIdentifier).

Inductive result (A : Type) : Type :=
| Return (a : A)
| Raise (e : exn).
Arguments Return {A} a.
Arguments Raise {A} e.

#[global] Instance result_ret : MRet result := fun A a => Return a.
#[global] Instance result_bind : MBind result := fun A B f m =>
  match m with
  | Return a => f a
  | Raise e => Raise e
  end.

(** [if c: raise e] as a statement. *)
Definition raise_if (c : bool) (e : exn) : result unit :=
  if c then Raise e else Return tt.

Definition succeeds {A} (r : result A) : Prop := ∃ a, r = Return a.
Definition fails {A} (r : result A) : Prop := ∃ e, r = Raise e.

(** ** Truth value testing ([bool(x)], as used by [if], [and], [or], [not]) *)

Class Truthy (A : Type) := truthy : A → bool.

#[global] Instance bool_truthy : Truthy bool := fun b => b.
(** [None] is false; any other value has the truth value of its class. *)
#[global] Instance option_truthy `{Truthy A} : Truthy (option A) := fun o =>
  match o with
  | None => false
  | Some a => truthy a
  end.
(** A [list] is true iff it is non-empty. *)
#[global] Instance list_truthy {A} : Truthy (list A) := fun l =>
  match l with
  | [] => false
  | _ :: _ => true
  end.

(** ** KeyUsage *)

Module KeyUsage.

Record t := {
  _digital_signature : bool;
  _content_commitment : bool;
  _key_encipherment : bool;
  _data_encipherment : bool;
  _key_agreement : bool;
  _key_cert_sign : bool;
  _crl_sign : bool;
  _encipher_only : bool;
  _decipher_only : bool
}.

Definition __init__
    (digital_signature content_commitment key_encipherment
     data_encipherment key_agreement key_cert_sign crl_sign
     encipher_only decipher_only : bool) : result t :=
  raise_if (negb key_agreement && (encipher_only || decipher_only))
    (ValueError ("encipher_only and decipher_only can only be true when "
                 +:+ "key_agreement is true"));;
  mret {| _digital_signature := digital_signature;
          _content_commitment := content_commitment;
          _key_encipherment := key_encipherment;
          _data_encipherment := data_encipherment;
          _key_agreement := key_agreement;
          _key_cert_sign := key_cert_sign;
          _crl_sign := crl_sign;
          _encipher_only := encipher_only;
          _decipher_only := decipher_only |}.

Definition digital_signature (self : t) : bool := _digital_signature self.
Definition content_commitment (self : t) : bool := _content_commitment self.
Definition key_encipherment (self : t) : bool := _key_encipherment self.
Definition data_encipherment (self : t) : bool := _data_encipherment self.
Definition key_agreement (self : t) : bool := _key_agreement self.
Definition key_cert_sign (self : t) : bool := _key_cert_sign self.
Definition crl_sign (self : t) : bool := _crl_sign self.

Definition encipher_only (self : t) : result bool :=
  if negb (key_agreement self) then
    Raise (ValueError
             "encipher_only is undefined unless key_agreement is true")
  else Return (_encipher_only self).

Definition decipher_only (self : t) : result bool :=
  if negb (key_agreement self) then
    Raise (ValueError
             "decipher_only is undefined unless key_agreement is true")
  else Return (_decipher_only self).

(** [__eq__] on two [KeyUsage] values: seven accessors, then the two raw
    fields. *)
Definition __eq__ (self other : t) : bool :=
  bool_decide (digital_signature self = digital_signature other)
  && bool_decide (content_commitment self = content_commitment other)
  && bool_decide (key_encipherment self = key_encipherment other)
  && bool_decide (data_encipherment self = data_encipherment other)
  && bool_decide (key_agreement self = key_agreement other)
  && bool_decide (key_cert_sign self = key_cert_sign other)
  && bool_decide (crl_sign self = crl_sign other)
  && bool_decide (_encipher_only self = _encipher_only other)
  && bool_decide (_decipher_only self = _decipher_only other).

(** What a caller can read off a value through its nine properties. *)
Definition observable (self : t)
  : bool * bool * bool * bool * bool * bool * bool
    * result bool * result bool :=
  (digital_signature self, content_commitment self, key_encipherment self,
   data_encipherment self, key_agreement self, key_cert_sign self,
   crl_sign self, encipher_only self, decipher_only self).

(** A value that some call of the constructor returned. *)
Definition constructed (ku : t) : Prop :=
  ∃ ds cc ke de ka kcs cs eo do_,
    __init__ ds cc ke de ka kcs cs eo do_ = Return ku.

End KeyUsage.

(** ** ReasonFlags *)

Inductive ReasonFlags : Type :=
| unspecified
| key_compromise
| ca_compromise
| affiliation_changed
| superseded
| cessation_of_operation
| certificate_hold
| privilege_withdrawn
| aa_compromise
| remove_from_crl.

#[global] Instance ReasonFlags_eq_dec : EqDecision ReasonFlags.
Proof. solve_decision. Defined.

(** The enumeration value of each member. *)
Definition ReasonFlags_value (r : ReasonFlags) : string :=
  match r with
  | unspecified => "unspecified"
  | key_compromise => "keyCompromise"
  | ca_compromise => "cACompromise"
  | affiliation_changed => "affiliationChanged"
  | superseded => "superseded"
  | cessation_of_operation => "cessationOfOperation"
  | certificate_hold => "certificateHold"
  | privilege_withdrawn => "privilegeWithdrawn"
  | aa_compromise => "aACompromise"
  | remove_from_crl => "removeFromCRL"
  end.

(** Position of a member in the declaration, used to count the members. *)
Definition ReasonFlags_index (r : ReasonFlags) : nat :=
  match r with
  | unspecified => 0
  | key_compromise => 1
  | ca_compromise => 2
  | affiliation_changed => 3
  | superseded => 4
  | cessation_of_operation => 5
  | certificate_hold => 6
  | privilege_withdrawn => 7
  | aa_compromise => 8
  | remove_from_crl => 9
  end.

Definition ReasonFlags_of_index (n : nat) : ReasonFlags :=
  match n with
  | 0 => unspecified
  | 1 => key_compromise
  | 2 => ca_compromise
  | 3 => affiliation_changed
  | 4 => superseded
  | 5 => cessation_of_operation
  | 6 => certificate_hold
  | 7 => privilege_withdrawn
  | 8 => aa_compromise
  | _ => remove_from_crl
  end.

#[global] Instance ReasonFlags_countable : Countable ReasonFlags.
Proof.
  apply (inj_countable' ReasonFlags_index ReasonFlags_of_index).
  intros []; reflexivity.
Defined.

(** A [frozenset] is true iff it is non-empty. *)
#[global] Instance frozenset_truthy `{Countable A} : Truthy (gset A) :=
  fun s => bool_decide (s ≠ ∅).

(** ** General names *)

(** The four classes of the standard [ipaddress] module that an [IPAddress]
    general name may hold: an address, or a network (address and prefix
    length). *)
Inductive _IPADDRESS_TYPES : Type :=
| IPv4Address (address : N)
| IPv6Address (address : N)
| IPv4Network (network_address : N) (prefixlen : N)
| IPv6Network (network_address : N) (prefixlen : N).

(** [isinstance(v, (ipaddress.IPv4Network, ipaddress.IPv6Network))] *)
Definition isinstance_network (v : _IPADDRESS_TYPES) : bool :=
  match v with
  | IPv4Network _ _ | IPv6Network _ _ => true
  | IPv4Address _ | IPv6Address _ => false
  end.

(** What this file imports from [x509/name.py]: the two classes, and the
    truth value of a [RelativeDistinguishedName]. *)
Class NameModule := {
  Name : Type;
  RelativeDistinguishedName : Type;
  RelativeDistinguishedName_truthy :: Truthy RelativeDistinguishedName
}.

(** The seven general-name classes, as values passed for a [type]
    argument. *)
Module cls.
Inductive general_name : Type :=
| DNSName
| RFC822Name
| UniformResourceIdentifier
| DirectoryName
| RegisteredID
| IPAddress
| OtherName.

#[global] Instance general_name_eq_dec : EqDecision general_name.
Proof. solve_decision. Defined.

(** [ExtensionType] and its subclasses in this file. *)
Inductive extension : Type :=
| ExtensionType
| CRLNumber
| AuthorityKeyIdentifier
| SubjectKeyIdentifier
| AuthorityInformationAccess
| SubjectInformationAccess
| BasicConstraints
| DeltaCRLIndicator
| CRLDistributionPoints
| FreshestCRL
| PolicyConstraints
| CertificatePolicies
| ExtendedKeyUsage
| OCSPNoCheck
| PrecertPoison
| TLSFeature
| InhibitAnyPolicy
| KeyUsage
| NameConstraints
| SubjectAlternativeName
| IssuerAlternativeName
| CertificateIssuer
| CRLReason
| InvalidityDate
| PrecertificateSignedCertificateTimestamps
| SignedCertificateTimestamps
| OCSPNonce
| IssuingDistributionPoint
| UnrecognizedExtension.

#[global] Instance extension_eq_dec : EqDecision extension.
Proof. solve_decision. Defined.
End cls.

Section GeneralName.
Context `{NameModule}.

(** Modelled from the spec: the general-name classes live in
    [x509/general_name.py]; the spec gives them as a closed set of
    variants, each with its payload. *)
Inductive GeneralName : Type :=
| DNSName (value : string)
| RFC822Name (value : string)
| UniformResourceIdentifier (value : string)
| DirectoryName (value : Name)
| RegisteredID (value : ObjectIdentifier)
| IPAddress (value : _IPADDRESS_TYPES)
| OtherName (type_id : ObjectIdentifier) (value : list Byte.byte).

(** [type(i)] *)
Definition GeneralName_type (i : GeneralName) : cls.general_name :=
  match i with
  | DNSName _ => cls.DNSName
  | RFC822Name _ => cls.RFC822Name
  | UniformResourceIdentifier _ => cls.UniformResourceIdentifier
  | DirectoryName _ => cls.DirectoryName
  | RegisteredID _ => cls.RegisteredID
  | IPAddress _ => cls.IPAddress
  | OtherName _ _ => cls.OtherName
  end.

(** [isinstance(i, type)]: none of the seven classes derives from
    another. *)
Definition GeneralName_isinstance
    (i : GeneralName) (type : cls.general_name) : bool :=
  bool_decide (GeneralName_type i = type).

(** An element of a list returned by [get_values_for_type]: a general name
    itself, or what its [value] property holds. *)
Inductive item : Type :=
| item_object (i : GeneralName)
| item_str (s : string)
| item_Name (n : Name)
| item_ObjectIdentifier (o : ObjectIdentifier)
| item_ip (a : _IPADDRESS_TYPES)
| item_bytes (b : list Byte.byte).

(** The [value] property. *)
Definition GeneralName_value (i : GeneralName) : item :=
  match i with
  | DNSName v | RFC822Name v | UniformResourceIdentifier v => item_str v
  | DirectoryName v => item_Name v
  | RegisteredID v => item_ObjectIdentifier v
  | IPAddress v => item_ip v
  | OtherName _ v => item_bytes v
  end.
End GeneralName.

(** ** GeneralNames *)

Module GeneralNames.
Section GeneralNames.
Context `{NameModule}.

Record t := { _general_names : list GeneralName }.

(** Every item is a [GeneralName] by its type, so the [TypeError] guard
    of the source cannot fire. *)
Definition __init__ (general_names : list GeneralName) : result t :=
  mret {| _general_names := general_names |}.

Definition __iter__ (self : t) : list GeneralName := _general_names self.
Definition __len__ (self : t) : nat := length (_general_names self).
Definition __getitem__ (self : t) (idx : nat) : option GeneralName :=
  _general_names self !! idx.

Definition get_values_for_type
    (self : t) (type : cls.general_name) : list item :=
  let objs :=
    List.filter (fun i => GeneralName_isinstance i type) (__iter__ self) in
  if bool_decide (type ≠ cls.OtherName) then
    List.map GeneralName_value objs
  else List.map item_object objs.

(** The contract in the spec's words, element by element: the unwrapped
    payload of an element of the variant asked for, the whole element for
    [OtherName], nothing for an element of another variant. *)
Definition spec_values_of
    (type : cls.general_name) (i : GeneralName) : list item :=
  match type, i with
  | cls.DNSName, DNSName s => [item_str s]
  | cls.RFC822Name, RFC822Name s => [item_str s]
  | cls.UniformResourceIdentifier, UniformResourceIdentifier s =>
      [item_str s]
  | cls.DirectoryName, DirectoryName n => [item_Name n]
  | cls.RegisteredID, RegisteredID o => [item_ObjectIdentifier o]
  | cls.IPAddress, IPAddress a => [item_ip a]
  | cls.OtherName, OtherName type_id value =>
      [item_object (OtherName type_id value)]
  | _, _ => []
  end.

Fixpoint spec_get_values_for_type
    (names : list GeneralName) (type : cls.general_name) : list item :=
  match names with
  | [] => []
  | i :: names' =>
      spec_values_of type i ++ spec_get_values_for_type names' type
  end.
End GeneralNames.
End GeneralNames.


(** ** DistributionPoint *)

Module DistributionPoint.
Section DistributionPoint.
Context `{NameModule}.

Record t := {
  _full_name : option (list GeneralName);
  _relative_name : option RelativeDistinguishedName;
  _reasons : option (gset ReasonFlags);
  _crl_issuer : option (list GeneralName)
}.

(** [ReasonFlags.unspecified in reasons or ReasonFlags.remove_from_crl in
    reasons], evaluated only behind [reasons and ...], so never on
    [None]. *)
Definition has_invalid_reason (reasons : option (gset ReasonFlags)) : bool :=
  match reasons with
  | None => false
  | Some s => bool_decide (unspecified ∈ s) || bool_decide (remove_from_crl ∈ s)
  end.

(** The guards of the source in their order.  The three [isinstance] guards
    on the elements of [full_name] and [crl_issuer], on [relative_name] and
    on [reasons] raise [TypeError] only for arguments outside the annotated
    types, so they have no counterpart here.  [full_name] and [crl_issuer]
    are lists or [None]: the first guard tests [full_name] as it was
    passed, the last one tests the list made of it, and for a list the two
    truth values are the same. *)
Definition __init__
    (full_name : option (list GeneralName))
    (relative_name : option RelativeDistinguishedName)
    (reasons : option (gset ReasonFlags))
    (crl_issuer : option (list GeneralName)) : result t :=
  raise_if (truthy full_name && truthy relative_name)
    (ValueError ("You cannot provide both full_name and relative_name, at "
                 +:+ "least one must be None."));;
  raise_if (truthy reasons && has_invalid_reason reasons)
    (ValueError ("unspecified and remove_from_crl are not valid reasons in a "
                 +:+ "DistributionPoint"));;
  raise_if (truthy reasons && negb (truthy crl_issuer)
            && negb (truthy full_name || truthy relative_name))
    (ValueError ("You must supply crl_issuer, full_name, or relative_name when "
                 +:+ "reasons is not None"));;
  mret {| _full_name := full_name;
          _relative_name := relative_name;
          _reasons := reasons;
          _crl_issuer := crl_issuer |}.

Definition full_name (self : t) := _full_name self.
Definition relative_name (self : t) := _relative_name self.
Definition reasons (self : t) := _reasons self.
Definition crl_issuer (self : t) := _crl_issuer self.

End DistributionPoint.
End DistributionPoint.

(** ** TLSFeature *)

Inductive TLSFeatureType : Type :=
| status_request
| status_request_v2.

Definition TLSFeatureType_value (x : TLSFeatureType) : Z :=
  match x with
  | status_request => 5
  | status_request_v2 => 17
  end.

(** An object found in an iterable whose elements a constructor tests with
    [isinstance(x, A)]: an instance of [A], or an object of another class
    (an [int], a [str] or [None] stand for those). *)
Inductive other : Type :=
| py_int (z : Z)
| py_str (s : string)
| py_None.

Inductive object (A : Type) : Type :=
| instance (a : A)
| not_instance (o : other).
Arguments instance {A} a.
Arguments not_instance {A} o.

Definition isinstance {A} (x : object A) : bool :=
  match x with
  | instance _ => true
  | not_instance _ => false
  end.

Module TLSFeature.

Record t := { _features : list (object TLSFeatureType) }.

Definition __init__ (features : list (object TLSFeatureType)) : result t :=
  raise_if (negb (forallb isinstance features) || (length features =? 0)%nat)
    (TypeError ("features must be a list of elements from the TLSFeatureType "
                +:+ "enum"));;
  mret {| _features := features |}.

Definition __iter__ (self : t) := _features self.
Definition __len__ (self : t) : nat := length (_features self).

End TLSFeature.

(** ** NameConstraints *)

Module NameConstraints.
Section NameConstraints.
Context `{NameModule}.

Record t := {
  _permitted_subtrees : option (list GeneralName);
  _excluded_subtrees : option (list GeneralName)
}.

(** [name.value] is read only when [name] is an [IPAddress]. *)
Definition _validate_ip_name (tree : list GeneralName) : result unit :=
  raise_if
    (existsb
       (fun name =>
          match name with
          | IPAddress value => negb (isinstance_network value)
          | _ => false
          end)
       tree)
    (TypeError ("IPAddress name constraints must be an IPv4Network or"
                +:+ " IPv6Network object")).

(** The elements of both lists are [GeneralName]s by their type, so the two
    [TypeError] guards on them have no counterpart here. *)
Definition __init__
    (permitted_subtrees excluded_subtrees : option (list GeneralName))
    : result t :=
  match permitted_subtrees with
  | Some permitted =>
      raise_if (negb (truthy permitted))
        (ValueError "permitted_subtrees must be a non-empty list or None");;
      _validate_ip_name permitted
  | None => mret tt
  end;;
  match excluded_subtrees with
  | Some excluded =>
      raise_if (negb (truthy excluded))
        (ValueError "excluded_subtrees must be a non-empty list or None");;
      _validate_ip_name excluded
  | None => mret tt
  end;;
  raise_if (bool_decide (permitted_subtrees = None)
            && bool_decide (excluded_subtrees = None))
    (ValueError ("At least one of permitted_subtrees and excluded_subtrees "
                 +:+ "must not be None"));;
  mret {| _permitted_subtrees := permitted_subtrees;
          _excluded_subtrees := excluded_subtrees |}.

Definition permitted_subtrees (self : t) := _permitted_subtrees self.
Definition excluded_subtrees (self : t) := _excluded_subtrees self.

(** An [IPAddress] general name whose value is an address, not a network. *)
Definition bare_address (name : GeneralName) : Prop :=
  ∃ value, name = IPAddress value ∧ isinstance_network value = false.

(** The invariants of one argument: [None], or a non-empty list in which no
    [IPAddress] carries a bare address. *)
Definition valid_subtrees (tree : option (list GeneralName)) : Prop :=
  match tree with
  | None => True
  | Some names => names ≠ [] ∧ Forall (fun name => ¬ bare_address name) names
  end.

End NameConstraints.
End NameConstraints.

(** ** IssuingDistributionPoint *)

Module IssuingDistributionPoint.
Section IssuingDistributionPoint.
Context `{NameModule}.

Record t := {
  _only_contains_user_certs : bool;
  _only_contains_ca_certs : bool;
  _indirect_crl : bool;
  _only_contains_attribute_certs : bool;
  _only_some_reasons : option (gset ReasonFlags);
  _full_name : option (list GeneralName);
  _relative_name : option RelativeDistinguishedName
}.

(** The guards of the source in their order.  The [isinstance] guards on
    [only_some_reasons] and on the four flags raise [TypeError] only for
    arguments outside the annotated types, so they have no counterpart
    here. *)
Definition __init__
    (full_name : option (list GeneralName))
    (relative_name : option RelativeDistinguishedName)
    (only_contains_user_certs only_contains_ca_certs : bool)
    (only_some_reasons : option (gset ReasonFlags))
    (indirect_crl only_contains_attribute_certs : bool) : result t :=
  raise_if (truthy only_some_reasons
            && DistributionPoint.has_invalid_reason only_some_reasons)
    (ValueError ("unspecified and remove_from_crl are not valid reasons in an "
                 +:+ "IssuingDistributionPoint"));;
  let crl_constraints :=
    [ only_contains_user_certs; only_contains_ca_certs; indirect_crl;
      only_contains_attribute_certs ] in
  raise_if (1 <? length (List.filter truthy crl_constraints))%nat
    (ValueError ("Only one of the following can be set to True: "
                 +:+ "only_contains_user_certs, only_contains_ca_certs, "
                 +:+ "indirect_crl, only_contains_attribute_certs"));;
  raise_if
    (negb (existsb id
             [ truthy only_contains_user_certs;
               truthy only_contains_ca_certs;
               truthy indirect_crl;
               truthy only_contains_attribute_certs;
               truthy full_name;
               truthy relative_name;
               truthy only_some_reasons ]))
    (ValueError ("Cannot create empty extension: "
                 +:+ "if only_contains_user_certs, only_contains_ca_certs, "
                 +:+ "indirect_crl, and only_contains_attribute_certs are all False"
                 +:+ ", then either full_name, relative_name, or only_some_reasons "
                 +:+ "must have a value."));;
  mret {| _only_contains_user_certs := only_contains_user_certs;
          _only_contains_ca_certs := only_contains_ca_certs;
          _indirect_crl := indirect_crl;
          _only_contains_attribute_certs := only_contains_attribute_certs;
          _only_some_reasons := only_some_reasons;
          _full_name := full_name;
          _relative_name := relative_name |}.

Definition full_name (self : t) := _full_name self.
Definition relative_name (self : t) := _relative_name self.
Definition only_contains_user_certs (self : t) :=
  _only_contains_user_certs self.
Definition only_contains_ca_certs (self : t) := _only_contains_ca_certs self.
Definition only_some_reasons (self : t) := _only_some_reasons self.
Definition indirect_crl (self : t) := _indirect_crl self.
Definition only_contains_attribute_certs (self : t) :=
  _only_contains_attribute_certs self.

End IssuingDistributionPoint.
End IssuingDistributionPoint.

(** ** UnrecognizedExtension *)

Module UnrecognizedExtension.

Record t := {
  _oid : ObjectIdentifier;
  _value : list Byte.byte
}.

Definition __init__ (oid : ObjectIdentifier) (value : list Byte.byte)
    : result t :=
  mret {| _oid := oid; _value := value |}.

Definition oid (self : t) : ObjectIdentifier := _oid self.
Definition value (self : t) : list Byte.byte := _value self.
Definition public_bytes (self : t) : list Byte.byte := value self.

End UnrecognizedExtension.

(** ** Extension and Extensions *)

(** What the container needs from the catalogue and from [x509/oid.py]: the
    values of the catalogue's classes with the class of each, the
    class-level [oid] of a class, and how an identifier and a class are
    rendered in a message. *)
Class Catalogue := {
  ExtensionType : Type;
  type_of : ExtensionType → cls.extension;
  class_oid : cls.extension → ObjectIdentifier;
  format_oid : ObjectIdentifier → string;
  format_class : cls.extension → string
}.

Module Extension.
Section Extension.
Context `{Catalogue}.

Record t := {
  _oid : ObjectIdentifier;
  _critical : bool;
  _value : ExtensionType
}.

Definition oid (self : t) : ObjectIdentifier := _oid self.
Definition critical (self : t) : bool := _critical self.
Definition value (self : t) : ExtensionType := _value self.

End Extension.
End Extension.

Module Extensions.
Section Extensions.
Context `{Catalogue}.

Record t := { _extensions : list Extension.t }.

Definition __init__ (extensions : list Extension.t) : t :=
  {| _extensions := extensions |}.

Definition __iter__ (self : t) : list Extension.t := _extensions self.
Definition __len__ (self : t) : nat := length (_extensions self).
Definition __getitem__ (self : t) (idx : nat) : option Extension.t :=
  _extensions self !! idx.

(** [isinstance(v, extclass)]: every class of the catalogue derives from
    [ExtensionType] and from no other class of the catalogue. *)
Definition isinstance_ext (v : ExtensionType) (extclass : cls.extension)
    : bool :=
  bool_decide (extclass = cls.ExtensionType)
  || bool_decide (type_of v = extclass).

(** The [for ext in self] loop of [get_extension_for_oid], with the [raise]
    that follows it. *)
Fixpoint for_oid (it : list Extension.t) (oid : ObjectIdentifier)
    : result Extension.t :=
  match it with
  | ext :: it' =>
      if bool_decide (Extension.oid ext = oid) then Return ext
      else for_oid it' oid
  | [] =>
      Raise (ExtensionNotFound
               ("No " +:+ format_oid oid +:+ " extension was found") oid)
  end.

Definition get_extension_for_oid (self : t) (oid : ObjectIdentifier)
    : result Extension.t :=
  for_oid (__iter__ self) oid.

(** The loop of [get_extension_for_class], with the [raise] that follows
    it. *)
Fixpoint for_class (it : list Extension.t) (extclass : cls.extension)
    : result Extension.t :=
  match it with
  | ext :: it' =>
      if isinstance_ext (Extension.value ext) extclass then Return ext
      else for_class it' extclass
  | [] =>
      Raise (ExtensionNotFound
               ("No " +:+ format_class extclass +:+ " extension was found")
               (class_oid extclass))
  end.

Definition get_extension_for_class (self : t) (extclass : cls.extension)
    : result Extension.t :=
  if bool_decide (extclass = cls.UnrecognizedExtension) then
    Raise (TypeError
             ("UnrecognizedExtension can't be used with "
              +:+ "get_extension_for_class because more than one instance of the"
              +:+ " class may be present."))
  else for_class (__iter__ self) extclass.

End Extensions.
End Extensions.

(** ** The reason-flag tables *)

(** [_REASON_BIT_MAPPING]: bit position to flag. *)
Definition _REASON_BIT_MAPPING : gmap Z ReasonFlags :=
  list_to_map
    [ (1, key_compromise); (2, ca_compromise); (3, affiliation_changed);
      (4, superseded); (5, cessation_of_operation); (6, certificate_hold);
      (7, privilege_withdrawn); (8, aa_compromise) ]%Z.

(** [_CRLREASONFLAGS]: flag to bit position. *)
Definition _CRLREASONFLAGS : gmap ReasonFlags Z :=
  list_to_map
    [ (key_compromise, 1); (ca_compromise, 2); (affiliation_changed, 3);
      (superseded, 4); (cessation_of_operation, 5); (certificate_hold, 6);
      (privilege_withdrawn, 7); (aa_compromise, 8) ]%Z.

(** ** BasicConstraints *)

Module BasicConstraints.

Record t := {
  _ca : bool;
  _path_length : option Z
}.

(** [ca] is a [bool] and [path_length] an [int] or [None] by their types;
    of the guard [not isinstance(path_length, int) or path_length < 0] the
    comparison remains. *)
Definition __init__ (ca : bool) (path_length : option Z) : result t :=
  raise_if (bool_decide (path_length ≠ None) && negb ca)
    (ValueError "path_length must be None when ca is False");;
  raise_if
    (match path_length with
     | Some n => (n <? 0)%Z
     | None => false
     end)
    (TypeError "path_length must be a non-negative integer or None");;
  mret {| _ca := ca; _path_length := path_length |}.

Definition ca (self : t) : bool := _ca self.
Definition path_length (self : t) : option Z := _path_length self.

Definition __eq__ (self other : t) : bool :=
  bool_decide (ca self = ca other)
  && bool_decide (path_length self = path_length other).

End BasicConstraints.

(** ** PolicyConstraints *)

Module PolicyConstraints.

Record t := {
  _require_explicit_policy : option Z;
  _inhibit_policy_mapping : option Z
}.

(** Both arguments are an [int] or [None] by their types, which is all the
    two [TypeError] guards test. *)
Definition __init__ (require_explicit_policy inhibit_policy_mapping : option Z)
    : result t :=
  raise_if (bool_decide (inhibit_policy_mapping = None)
            && bool_decide (require_explicit_policy = None))
    (ValueError ("At least one of require_explicit_policy and "
                 +:+ "inhibit_policy_mapping must not be None"));;
  mret {| _require_explicit_policy := require_explicit_policy;
          _inhibit_policy_mapping := inhibit_policy_mapping |}.

Definition require_explicit_policy (self : t) := _require_explicit_policy self.
Definition inhibit_policy_mapping (self : t) := _inhibit_policy_mapping self.

End PolicyConstraints.

(** ** InhibitAnyPolicy *)

Module InhibitAnyPolicy.

Record t := { _skip_certs : Z }.

Definition __init__ (skip_certs : Z) : result t :=
  raise_if (skip_certs <? 0)%Z
    (ValueError "skip_certs must be a non-negative integer");;
  mret {| _skip_certs := skip_certs |}.

Definition skip_certs (self : t) : Z := _skip_certs self.

End InhibitAnyPolicy.

(** ** Key identifiers *)

#[global] Instance byte_eq_dec : EqDecision Byte.byte := Byte.byte_eq_dec.

(** The members of [serialization.Encoding] and
    [serialization.PublicFormat] that this file names. *)
Inductive Encoding : Type :=
| DER
| X962.

Inductive PublicFormat : Type :=
| PKCS1
| UncompressedPoint
| SubjectPublicKeyInfo.

(** What [_key_identifier_from_public_key] calls outside this file: the
    public keys with the two [isinstance] tests made on them and their
    [public_bytes] method, [asn1.parse_spki_for_data], and
    [hashlib.sha1(data).digest()].  The two calls that can raise return a
    [result]. *)
Class KeyModule := {
  PublicKey : Type;
  isinstance_RSAPublicKey : PublicKey → bool;
  isinstance_EllipticCurvePublicKey : PublicKey → bool;
  public_bytes : PublicKey → Encoding → PublicFormat → result (list Byte.byte);
  parse_spki_for_data : list Byte.byte → result (list Byte.byte);
  sha1_digest : list Byte.byte → list Byte.byte
}.

Section key_identifier.
Context `{KeyModule}.

Definition _key_identifier_from_public_key (public_key : PublicKey)
    : result (list Byte.byte) :=
  data ←
    (if isinstance_RSAPublicKey public_key then
       public_bytes public_key DER PKCS1
     else if isinstance_EllipticCurvePublicKey public_key then
       public_bytes public_key X962 UncompressedPoint
     else
       serialized ← public_bytes public_key DER SubjectPublicKeyInfo;
       parse_spki_for_data serialized);
  mret (sha1_digest data).

End key_identifier.

Module SubjectKeyIdentifier.
Section SubjectKeyIdentifier.
Context `{KeyModule}.

Record t := { _digest : list Byte.byte }.

Definition __init__ (digest : list Byte.byte) : result t :=
  mret {| _digest := digest |}.

Definition from_public_key (public_key : PublicKey) : result t :=
  digest ← _key_identifier_from_public_key public_key;
  __init__ digest.

Definition digest (self : t) : list Byte.byte := _digest self.
Definition key_identifier (self : t) : list Byte.byte := _digest self.

(** [constant_time.bytes_eq] on two [bytes] values is their equality. *)
Definition __eq__ (self other : t) : bool :=
  bool_decide (digest self = digest other).

End SubjectKeyIdentifier.
End SubjectKeyIdentifier.

Module AuthorityKeyIdentifier.
Section AuthorityKeyIdentifier.
Context `{NameModule} `{KeyModule}.

Record t := {
  _key_identifier : option (list Byte.byte);
  _authority_cert_issuer : option (list GeneralName);
  _authority_cert_serial_number : option Z
}.

(** The elements of [authority_cert_issuer] are [GeneralName]s and the
    serial number an [int] by their types, so the two [TypeError] guards
    have no counterpart here. *)
Definition __init__
    (key_identifier : option (list Byte.byte))
    (authority_cert_issuer : option (list GeneralName))
    (authority_cert_serial_number : option Z) : result t :=
  raise_if
    (xorb (bool_decide (authority_cert_issuer = None))
          (bool_decide (authority_cert_serial_number = None)))
    (ValueError ("authority_cert_issuer and authority_cert_serial_number "
                 +:+ "must both be present or both None"));;
  mret {| _key_identifier := key_identifier;
          _authority_cert_issuer := authority_cert_issuer;
          _authority_cert_serial_number := authority_cert_serial_number |}.

Definition from_issuer_public_key (public_key : PublicKey) : result t :=
  digest ← _key_identifier_from_public_key public_key;
  __init__ (Some digest) None None.

Definition from_issuer_subject_key_identifier (ski : SubjectKeyIdentifier.t)
    : result t :=
  __init__ (Some (SubjectKeyIdentifier.digest ski)) None None.

Definition key_identifier (self : t) := _key_identifier self.
Definition authority_cert_issuer (self : t) := _authority_cert_issuer self.
Definition authority_cert_serial_number (self : t) :=
  _authority_cert_serial_number self.

End AuthorityKeyIdentifier.
End AuthorityKeyIdentifier.

(** ** The return types of [get_values_for_type] *)

Section overloads.
Context `{NameModule}.

(** What the [typing.overload]s of [get_values_for_type] declare for the
    elements of the list returned for a [type]: [str] for [DNSName],
    [UniformResourceIdentifier] and [RFC822Name], [Name] for
    [DirectoryName], [ObjectIdentifier] for [RegisteredID], an address or
    network for [IPAddress], and [OtherName] objects for [OtherName]. *)
Definition overload_element (type : cls.general_name) (x : item) : Prop :=
  match type, x with
  | (cls.DNSName | cls.UniformResourceIdentifier | cls.RFC822Name),
    item_str _ => True
  | cls.DirectoryName, item_Name _ => True
  | cls.RegisteredID, item_ObjectIdentifier _ => True
  | cls.IPAddress, item_ip _ => True
  | cls.OtherName, item_object (OtherName _ _) => True
  | _, _ => False
  end.

End overloads.

(** ** SubjectAlternativeName *)

Module SubjectAlternativeName.
Section SubjectAlternativeName.
Context `{NameModule}.

Record t := { _general_names : GeneralNames.t }.

Definition __init__ (general_names : list GeneralName) : result t :=
  names ← GeneralNames.__init__ general_names;
  mret {| _general_names := names |}.

Definition __iter__ (self : t) : list GeneralName :=
  GeneralNames.__iter__ (_general_names self).
Definition __len__ (self : t) : nat :=
  GeneralNames.__len__ (_general_names self).

Definition get_values_for_type (self : t) (type : cls.general_name)
    : list item :=
  GeneralNames.get_values_for_type (_general_names self) type.

End SubjectAlternativeName.
End SubjectAlternativeName.

(** ** Concrete collaborators

    An instance of each interface above, on which the definitions can be
    evaluated: names as lists of (attribute type, value) pairs, and a
    catalogue holding values of three of the classes embedded here. *)

Definition example_names : NameModule :=
  {| Name := list (list (string * string));
     RelativeDistinguishedName := list (string * string);
     RelativeDistinguishedName_truthy := list_truthy |}.

Definition example_rdn : @RelativeDistinguishedName example_names :=
  [("2.5.4.3", "example")].

Inductive example_value : Type :=
| value_KeyUsage (v : KeyUsage.t)
| value_TLSFeature (v : TLSFeature.t)
| value_UnrecognizedExtension (v : UnrecognizedExtension.t).

Definition example_type_of (v : example_value) : cls.extension :=
  match v with
  | value_KeyUsage _ => cls.KeyUsage
  | value_TLSFeature _ => cls.TLSFeature
  | value_UnrecognizedExtension _ => cls.UnrecognizedExtension
  end.

Definition KEY_USAGE : ObjectIdentifier := {| dotted_string := "2.5.29.15" |}.
Definition TLS_FEATURE : ObjectIdentifier :=
  {| dotted_string := "1.3.6.1.5.5.7.1.24" |}.

Definition example_catalogue : Catalogue :=
  {| ExtensionType := example_value;
     type_of := example_type_of;
     class_oid := fun c =>
       match c with
       | cls.TLSFeature => TLS_FEATURE
       | _ => KEY_USAGE
       end;
     format_oid := dotted_string;
     format_class := fun _ => "<class>" |}.

Definition example_key_usage : KeyUsage.t :=
  {| KeyUsage._digital_signature := true;
     KeyUsage._content_commitment := false;
     KeyUsage._key_encipherment := false;
     KeyUsage._data_encipherment := false;
     KeyUsage._key_agreement := false;
     KeyUsage._key_cert_sign := false;
     KeyUsage._crl_sign := false;
     KeyUsage._encipher_only := false;
     KeyUsage._decipher_only := false |}.

Definition example_unrecognized (critical : bool)
    : @Extension.t example_catalogue :=
  @Extension.Build_t example_catalogue
    {| dotted_string := "1.2.3.4" |} critical
    (value_UnrecognizedExtension
       {| UnrecognizedExtension._oid := {| dotted_string := "1.2.3.4" |};
          UnrecognizedExtension._value := [] |}).

Definition example_extensions : @Extensions.t example_catalogue :=
  Extensions.__init__
    [ @Extension.Build_t example_catalogue
        KEY_USAGE true (value_KeyUsage example_key_usage);
      example_unrecognized true;
      example_unrecognized false ].

(** Keys for the examples: a key is its kind and the bytes each
    serialization gives; the digest function only has to be some function
    of the data. *)
Inductive example_key_kind : Type :=
| kind_RSA
| kind_EC
| kind_Ed25519.

Definition example_keys : KeyModule :=
  {| PublicKey := example_key_kind * list Byte.byte;
     isinstance_RSAPublicKey := fun k =>
       match fst k with kind_RSA => true | _ => false end;
     isinstance_EllipticCurvePublicKey := fun k =>
       match fst k with kind_EC => true | _ => false end;
     public_bytes := fun k encoding format =>
       match encoding, format with
       | DER, SubjectPublicKeyInfo => Return (Byte.x30 :: snd k)
       | _, _ => Return (snd k)
       end;
     parse_spki_for_data := fun serialized =>
       match serialized with
       | _ :: data => Return data
       | [] => Raise (ValueError "error parsing asn1 value")
       end;
     sha1_digest := fun data => rev data |}.

(** * Properties *)

(** ** KeyUsage *)

Lemma KeyUsage_init_Return ds cc ke de ka kcs cs eo do_ ku :
  KeyUsage.__init__ ds cc ke de ka kcs cs eo do_ = Return ku →
  ku = {| KeyUsage._digital_signature := ds;
          KeyUsage._content_commitment := cc;
          KeyUsage._key_encipherment := ke;
          KeyUsage._data_encipherment := de;
          KeyUsage._key_agreement := ka;
          KeyUsage._key_cert_sign := kcs;
          KeyUsage._crl_sign := cs;
          KeyUsage._encipher_only := eo;
          KeyUsage._decipher_only := do_ |}
  ∧ (ka = false → eo = false ∧ do_ = false).
Proof.
  unfold KeyUsage.__init__.
  destruct ka, eo, do_; cbn; intros Hr; inversion Hr; auto.
Qed.

(** C1. [KeyUsage]: construction raises whenever [key_agreement] is false
    and [encipher_only] or [decipher_only] is true; with [key_agreement]
    true it returns a value whose [encipher_only] and [decipher_only]
    properties return the arguments passed; and on a value constructed with
    [key_agreement] false both properties raise (the [ValueError] of the
    source, which is how it signals the unmet precondition). *)
Theorem KeyUsage_encipher_decipher_only ds cc ke de ka kcs cs eo do_ :
  let r := KeyUsage.__init__ ds cc ke de ka kcs cs eo do_ in
  (ka = false → eo = true ∨ do_ = true →
   r = Raise (ValueError
                "encipher_only and decipher_only can only be true when key_agreement is true"))
  ∧ (ka = true →
     ∃ ku, r = Return ku
           ∧ KeyUsage.encipher_only ku = Return eo
           ∧ KeyUsage.decipher_only ku = Return do_)
  ∧ (ka = false → ∀ ku, r = Return ku →
     KeyUsage.encipher_only ku
       = Raise (ValueError
                  "encipher_only is undefined unless key_agreement is true")
     ∧ KeyUsage.decipher_only ku
       = Raise (ValueError
                  "decipher_only is undefined unless key_agreement is true")).
Proof.
  cbn zeta. split; [|split].
  - intros -> [-> | ->]; [|destruct eo]; reflexivity.
  - intros ->. eexists. split; [reflexivity|]. split; reflexivity.
  - intros -> ku Hr.
    apply KeyUsage_init_Return in Hr as [-> _]. split; reflexivity.
Qed.

Lemma KeyUsage_encipher_decipher_only_witness :
  KeyUsage.__init__ true false false false false false false true false
    = Raise (ValueError
               "encipher_only and decipher_only can only be true when key_agreement is true")
  ∧ (∃ ku,
       KeyUsage.__init__ true false false false true false false true false
         = Return ku
       ∧ KeyUsage.encipher_only ku = Return true
       ∧ KeyUsage.decipher_only ku = Return false)
  ∧ KeyUsage.encipher_only example_key_usage
      = Raise (ValueError
                 "encipher_only is undefined unless key_agreement is true")
  ∧ KeyUsage.decipher_only example_key_usage
      = Raise (ValueError
                 "decipher_only is undefined unless key_agreement is true").
Proof.
  split; [|split].
  - apply (KeyUsage_encipher_decipher_only
             true false false false false false false true false);
      [reflexivity | left; reflexivity].
  - apply (KeyUsage_encipher_decipher_only
             true false false false true false false true false).
    reflexivity.
  - apply (KeyUsage_encipher_decipher_only
             true false false false false false false false false);
      reflexivity.
Defined.

Lemma example_key_usage_constructed : KeyUsage.constructed example_key_usage.
Proof.
  exists true, false, false, false, false, false, false, false, false.
  reflexivity.
Qed.

(** C10. Every value returned by the [KeyUsage] constructor with
    [key_agreement] false stores [False] in both [_encipher_only] and
    [_decipher_only]; hence [__eq__], which compares these two raw fields,
    holds between two constructed values exactly when all that their nine
    properties let a caller observe is equal. *)
Theorem KeyUsage_eq_observable ku1 ku2 :
  KeyUsage.constructed ku1 → KeyUsage.constructed ku2 →
  (KeyUsage.key_agreement ku1 = false →
   KeyUsage._encipher_only ku1 = false ∧ KeyUsage._decipher_only ku1 = false)
  ∧ (KeyUsage.__eq__ ku1 ku2 = true
     ↔ KeyUsage.observable ku1 = KeyUsage.observable ku2).
Proof.
  intros (ds1 & cc1 & ke1 & de1 & ka1 & kcs1 & cs1 & eo1 & do1 & H1).
  intros (ds2 & cc2 & ke2 & de2 & ka2 & kcs2 & cs2 & eo2 & do2 & H2).
  apply KeyUsage_init_Return in H1 as [-> I1].
  apply KeyUsage_init_Return in H2 as [-> I2].
  split; [exact I1|].
  unfold KeyUsage.__eq__, KeyUsage.observable, KeyUsage.encipher_only,
    KeyUsage.decipher_only; cbn.
  rewrite !andb_true_iff, !bool_decide_eq_true. split.
  - intros ((((((((-> & ->) & ->) & ->) & ->) & ->) & ->) & ->) & ->).
    reflexivity.
  - intros Heq. injection Heq as -> -> -> -> -> -> -> Heo Hdo.
    destruct ka2; cbn in Heo, Hdo.
    + injection Heo as ->. injection Hdo as ->. repeat split.
    + destruct (I1 eq_refl) as [-> ->], (I2 eq_refl) as [-> ->].
      repeat split.
Qed.

Lemma KeyUsage_eq_observable_witness :
  (KeyUsage.key_agreement example_key_usage = false →
   KeyUsage._encipher_only example_key_usage = false
   ∧ KeyUsage._decipher_only example_key_usage = false)
  ∧ (KeyUsage.__eq__ example_key_usage example_key_usage = true
     ↔ KeyUsage.observable example_key_usage
       = KeyUsage.observable example_key_usage).
Proof.
  apply (KeyUsage_eq_observable example_key_usage example_key_usage).
  - exists true, false, false, false, false, false, false, false, false.
    reflexivity.
  - exists true, false, false, false, false, false, false, false, false.
    reflexivity.
Defined.

(** The invariant is what makes the two notions agree: two records that no
    constructor call returns differ in a raw field while every property
    reads the same. *)
Example KeyUsage_eq_needs_invariant :
  let ku := {| KeyUsage._digital_signature := true;
               KeyUsage._content_commitment := false;
               KeyUsage._key_encipherment := false;
               KeyUsage._data_encipherment := false;
               KeyUsage._key_agreement := false;
               KeyUsage._key_cert_sign := false;
               KeyUsage._crl_sign := false;
               KeyUsage._encipher_only := true;
               KeyUsage._decipher_only := false |} in
  KeyUsage.observable ku = KeyUsage.observable example_key_usage
  ∧ KeyUsage.__eq__ ku example_key_usage = false.
Proof. split; reflexivity. Qed.

(** ** Extensions *)

(** C3. [get_extension_for_class] called with the [UnrecognizedExtension]
    class raises [TypeError] for every container, whatever it holds; in
    particular it never raises [ExtensionNotFound] and never returns. *)
Theorem get_extension_for_class_UnrecognizedExtension
    `{Catalogue} (self : Extensions.t) :
  Extensions.get_extension_for_class self cls.UnrecognizedExtension
    = Raise (TypeError
               "UnrecognizedExtension can't be used with get_extension_for_class because more than one instance of the class may be present.")
  ∧ (∀ msg oid,
       Extensions.get_extension_for_class self cls.UnrecognizedExtension
         ≠ Raise (ExtensionNotFound msg oid))
  ∧ ¬ succeeds
        (Extensions.get_extension_for_class self cls.UnrecognizedExtension).
Proof.
  assert (Extensions.get_extension_for_class self cls.UnrecognizedExtension
          = Raise (TypeError
               "UnrecognizedExtension can't be used with get_extension_for_class because more than one instance of the class may be present."))
    as Hr by reflexivity.
  split; [exact Hr|]. rewrite Hr. split.
  - intros msg oid. discriminate.
  - intros [ext Hext]. discriminate.
Qed.

(** The same call on a container that holds two [UnrecognizedExtension]
    values. *)
Example get_extension_for_class_UnrecognizedExtension_present :
  Extensions.get_extension_for_class
    example_extensions cls.UnrecognizedExtension
  = Raise (TypeError
             "UnrecognizedExtension can't be used with get_extension_for_class because more than one instance of the class may be present.").
Proof. reflexivity. Qed.

Section for_oid.
Context `{Catalogue}.
Implicit Types (it before after : list Extension.t) (oid : ObjectIdentifier).

Lemma for_oid_no_match it oid :
  Forall (fun ext => Extension.oid ext ≠ oid) it →
  Extensions.for_oid it oid
  = Raise (ExtensionNotFound
             ("No " +:+ format_oid oid +:+ " extension was found") oid).
Proof.
  induction 1 as [|ext it Hne _ IH]; cbn; [reflexivity|].
  rewrite bool_decide_eq_false_2 by exact Hne. exact IH.
Qed.

Lemma for_oid_skip before it oid :
  Forall (fun ext => Extension.oid ext ≠ oid) before →
  Extensions.for_oid (before ++ it)%list oid = Extensions.for_oid it oid.
Proof.
  induction 1 as [|ext before' Hne _ IH]; cbn; [reflexivity|].
  rewrite bool_decide_eq_false_2 by exact Hne. exact IH.
Qed.

(** A list with a matching element splits at its first one. *)
Lemma first_match_split it oid :
  Exists (fun ext => Extension.oid ext = oid) it →
  ∃ before ext after,
    it = (before ++ ext :: after)%list
    ∧ Forall (fun ext' => Extension.oid ext' ≠ oid) before
    ∧ Extension.oid ext = oid.
Proof.
  induction it as [|e it IH]; intros Hex; [inversion Hex|].
  destruct (decide (Extension.oid e = oid)) as [Heq|Hne].
  - exists [], e, it. repeat split; [constructor | exact Heq].
  - inversion Hex as [? ? He|? ? Hit]; subst; [contradiction|].
    destruct (IH Hit) as (before & ext & after & -> & Hb & Hm).
    exists (e :: before), ext, after.
    repeat split; [constructor; assumption | exact Hm].
Qed.

End for_oid.

(** C4. [get_extension_for_oid]: when some contained extension has the
    identifier sought, the call returns the first such extension in
    insertion order (every extension before it has another identifier);
    when none has it, the empty container included, the call raises
    [ExtensionNotFound] carrying the identifier sought. *)
Theorem get_extension_for_oid_first_match
    `{Catalogue} (self : Extensions.t) (oid : ObjectIdentifier) :
  (Exists (fun ext => Extension.oid ext = oid) (Extensions._extensions self) →
   ∃ (before : list Extension.t) ext after,
     Extensions._extensions self = (before ++ ext :: after)%list
     ∧ Forall (fun ext' => Extension.oid ext' ≠ oid) before
     ∧ Extension.oid ext = oid
     ∧ Extensions.get_extension_for_oid self oid = Return ext)
  ∧ (Forall (fun ext => Extension.oid ext ≠ oid) (Extensions._extensions self) →
     Extensions.get_extension_for_oid self oid
     = Raise (ExtensionNotFound
                ("No " +:+ format_oid oid +:+ " extension was found") oid)).
Proof.
  unfold Extensions.get_extension_for_oid, Extensions.__iter__. split.
  - intros Hex.
    destruct (first_match_split _ _ Hex) as (before & ext & after & E & Hb & Hm).
    exists before, ext, after. repeat split; try assumption.
    rewrite E, for_oid_skip by exact Hb. cbn.
    rewrite bool_decide_eq_true_2 by exact Hm. reflexivity.
  - apply for_oid_no_match.
Qed.

Lemma get_extension_for_oid_first_match_witness :
  (∃ (before : list (@Extension.t example_catalogue)) ext after,
     Extensions._extensions example_extensions = (before ++ ext :: after)%list
     ∧ Forall
         (fun ext' => Extension.oid ext' ≠ {| dotted_string := "1.2.3.4" |})
         before
     ∧ Extension.oid ext = {| dotted_string := "1.2.3.4" |}
     ∧ Extensions.get_extension_for_oid
         example_extensions {| dotted_string := "1.2.3.4" |}
       = Return ext)
  ∧ Extensions.get_extension_for_oid
      example_extensions {| dotted_string := "2.5.29.19" |}
    = Raise (ExtensionNotFound
               "No 2.5.29.19 extension was found"
               {| dotted_string := "2.5.29.19" |}).
Proof.
  split.
  - apply (get_extension_for_oid_first_match
             example_extensions {| dotted_string := "1.2.3.4" |}).
    right. left. reflexivity.
  - apply (get_extension_for_oid_first_match
             example_extensions {| dotted_string := "2.5.29.19" |}).
    repeat constructor; discriminate.
Defined.

(** Of two extensions with the identifier sought, the one inserted first is
    returned; on the empty container the call raises. *)
Example get_extension_for_oid_duplicates :
  Extensions.get_extension_for_oid
    example_extensions {| dotted_string := "1.2.3.4" |}
  = Return (example_unrecognized true)
  ∧ Extensions.get_extension_for_oid
      (@Extensions.__init__ example_catalogue []) KEY_USAGE
    = Raise (ExtensionNotFound "No 2.5.29.15 extension was found" KEY_USAGE).
Proof. split; reflexivity. Qed.

(** ** GeneralNames *)

Section get_values_for_type.
Context `{NameModule}.
Implicit Types (names : list GeneralName) (type : cls.general_name).

Lemma get_values_for_type_refines names type :
  GeneralNames.get_values_for_type
    {| GeneralNames._general_names := names |} type
  = GeneralNames.spec_get_values_for_type names type.
Proof.
  unfold GeneralNames.get_values_for_type, GeneralNames.__iter__; cbn.
  induction names as [|i names IH]; [destruct type; reflexivity|].
  destruct type, i; cbn in *; rewrite <- ?IH; reflexivity.
Qed.

Lemma spec_get_values_for_type_app names1 names2 type :
  GeneralNames.spec_get_values_for_type (names1 ++ names2)%list type
  = (GeneralNames.spec_get_values_for_type names1 type
     ++ GeneralNames.spec_get_values_for_type names2 type)%list.
Proof.
  induction names1 as [|i names1 IH]; cbn; [reflexivity|].
  rewrite IH. apply app_assoc.
Qed.

Lemma spec_get_values_for_type_nil names type :
  Forall (fun i => GeneralName_type i ≠ type) names →
  GeneralNames.spec_get_values_for_type names type = [].
Proof.
  induction 1 as [|i names Hne _ IH]; cbn; [reflexivity|].
  rewrite IH. destruct type, i; cbn in *; try reflexivity; contradiction.
Qed.

End get_values_for_type.

(** C5. [get_values_for_type]: the list returned is the contract's, read
    element by element in insertion order (the payload of each element of
    the variant asked for, the whole element when that variant is
    [OtherName], nothing for other elements); it is built in the order of
    the sequence, so the result for a concatenation is the concatenation of
    the results; and when no element is of the variant asked for it is the
    empty list. *)
Theorem get_values_for_type_contract
    `{NameModule} (self : GeneralNames.t) (type : cls.general_name) :
  GeneralNames.get_values_for_type self type
  = GeneralNames.spec_get_values_for_type
      (GeneralNames._general_names self) type
  ∧ (∀ names1 names2,
       GeneralNames._general_names self = (names1 ++ names2)%list →
       GeneralNames.get_values_for_type self type
       = (GeneralNames.get_values_for_type
            {| GeneralNames._general_names := names1 |} type
          ++ GeneralNames.get_values_for_type
               {| GeneralNames._general_names := names2 |} type)%list)
  ∧ (Forall (fun i => GeneralName_type i ≠ type)
       (GeneralNames._general_names self) →
     GeneralNames.get_values_for_type self type = []).
Proof.
  destruct self as [names]; cbn. split; [|split].
  - apply get_values_for_type_refines.
  - intros names1 names2 ->.
    rewrite !get_values_for_type_refines.
    apply spec_get_values_for_type_app.
  - intros Hnone. rewrite get_values_for_type_refines.
    apply spec_get_values_for_type_nil, Hnone.
Qed.

Lemma get_values_for_type_contract_witness :
  let names : list (@GeneralName example_names) :=
    [ DNSName "a.example";
      OtherName {| dotted_string := "1.2.3.4" |} [Byte.x05; Byte.x00];
      DNSName "b.example" ] in
  let self := {| GeneralNames._general_names := names |} in
  GeneralNames.get_values_for_type self cls.DNSName
  = (GeneralNames.get_values_for_type
       {| GeneralNames._general_names := [DNSName "a.example"] |} cls.DNSName
     ++ GeneralNames.get_values_for_type
          {| GeneralNames._general_names :=
               [ OtherName {| dotted_string := "1.2.3.4" |}
                   [Byte.x05; Byte.x00];
                 DNSName "b.example" ] |} cls.DNSName)%list
  ∧ GeneralNames.get_values_for_type self cls.RFC822Name = [].
Proof.
  intros names self. split.
  - apply (get_values_for_type_contract self cls.DNSName). reflexivity.
  - apply (get_values_for_type_contract self cls.RFC822Name).
    repeat constructor; discriminate.
Defined.

(** On a sequence with two [DNSName]s around an [OtherName]: the two strings
    in their order, and the [OtherName] element itself. *)
Example get_values_for_type_values :
  let other : @GeneralName example_names :=
    OtherName {| dotted_string := "1.2.3.4" |} [Byte.x05; Byte.x00] in
  let self :=
    {| GeneralNames._general_names :=
         [DNSName "a.example"; other; DNSName "b.example"] |} in
  GeneralNames.get_values_for_type self cls.DNSName
  = [item_str "a.example"; item_str "b.example"]
  ∧ GeneralNames.get_values_for_type self cls.OtherName = [item_object other]
  ∧ GeneralNames.get_values_for_type self cls.IPAddress = [].
Proof. repeat split; reflexivity. Qed.

(** ** DistributionPoint *)

(** C2 at the input [full_name=[]], [relative_name] a (non-[None])
    relative distinguished name: both arguments are supplied, yet the first
    guard tests their truth values, an empty list is false, and the
    constructor returns a value holding both. *)
Theorem DistributionPoint_empty_full_name_with_relative_name
    `{NameModule} (rdn : RelativeDistinguishedName) :
  DistributionPoint.__init__ (Some []) (Some rdn) None None
  = Return {| DistributionPoint._full_name := Some [];
              DistributionPoint._relative_name := Some rdn;
              DistributionPoint._reasons := None;
              DistributionPoint._crl_issuer := None |}.
Proof. reflexivity. Qed.

(** What the guard does enforce: two arguments that are both true (a
    non-empty [full_name] and a true [relative_name]) are refused with the
    [ValueError]. *)
Lemma DistributionPoint_both_names_true
    `{NameModule} full_name relative_name reasons crl_issuer :
  truthy full_name = true → truthy relative_name = true →
  DistributionPoint.__init__ full_name relative_name reasons crl_issuer
  = Raise (ValueError
             "You cannot provide both full_name and relative_name, at least one must be None.").
Proof.
  intros Hf Hr. unfold DistributionPoint.__init__.
  rewrite Hf, Hr. reflexivity.
Qed.

(** C9. [DistributionPoint] construction succeeds when [reasons] is the
    empty frozenset and [full_name], [relative_name] and [crl_issuer] are
    all [None]; and either of the two guards on [reasons] (no [unspecified]
    or [remove_from_crl]; a name or [crl_issuer] required) raises only for
    a non-empty reason set. *)
Theorem DistributionPoint_empty_reasons
    `{NameModule} full_name relative_name reasons crl_issuer :
  DistributionPoint.__init__ None None (Some ∅) None
  = Return {| DistributionPoint._full_name := None;
              DistributionPoint._relative_name := None;
              DistributionPoint._reasons := Some ∅;
              DistributionPoint._crl_issuer := None |}
  ∧ (DistributionPoint.__init__ full_name relative_name reasons crl_issuer
     = Raise (ValueError
                "unspecified and remove_from_crl are not valid reasons in a DistributionPoint")
     ∨ DistributionPoint.__init__ full_name relative_name reasons crl_issuer
       = Raise (ValueError
                  "You must supply crl_issuer, full_name, or relative_name when reasons is not None") →
     ∃ s : gset ReasonFlags, reasons = Some s ∧ s ≠ ∅).
Proof.
  split; [reflexivity|].
  unfold DistributionPoint.__init__.
  destruct (truthy full_name && truthy relative_name); cbn;
    [intros [?|?]; discriminate|].
  destruct reasons as [s|]; cbn.
  - unfold truthy, frozenset_truthy.
    destruct (decide (s ≠ ∅)) as [Hne|He].
    + intros _. exists s. split; [reflexivity | exact Hne].
    + rewrite bool_decide_eq_false_2 by exact He. cbn.
      intros [?|?]; discriminate.
  - intros [?|?]; discriminate.
Qed.

Lemma DistributionPoint_empty_reasons_witness :
  ∃ s : gset ReasonFlags, Some {[ key_compromise ]} = Some s ∧ s ≠ ∅.
Proof.
  apply (DistributionPoint_empty_reasons (H := example_names)
           None None (Some {[ key_compromise ]}) None).
  right. reflexivity.
Defined.

(** The two guards at work on non-empty reason sets, next to the empty
    one. *)
Example DistributionPoint_reasons_guards :
  DistributionPoint.__init__ (H := example_names)
    (Some [DNSName "example.com"]) None (Some {[ key_compromise ]}) None
  = Return {| DistributionPoint._full_name := Some [DNSName "example.com"];
              DistributionPoint._relative_name := None;
              DistributionPoint._reasons := Some {[ key_compromise ]};
              DistributionPoint._crl_issuer := None |}
  ∧ DistributionPoint.__init__ (H := example_names)
      (Some [DNSName "example.com"]) None (Some {[ unspecified ]}) None
    = Raise (ValueError
               "unspecified and remove_from_crl are not valid reasons in a DistributionPoint")
  ∧ DistributionPoint.__init__ (H := example_names)
      None None (Some {[ key_compromise ]}) None
    = Raise (ValueError
               "You must supply crl_issuer, full_name, or relative_name when reasons is not None").
Proof. repeat split; reflexivity. Qed.

Example DistributionPoint_empty_full_name_example :
  DistributionPoint.__init__ (H := example_names)
    (Some []) (Some example_rdn) None None
  = Return {| DistributionPoint._full_name := Some [];
              DistributionPoint._relative_name := Some example_rdn;
              DistributionPoint._reasons := None;
              DistributionPoint._crl_issuer := None |}.
Proof. reflexivity. Qed.

(** ** IssuingDistributionPoint *)

(** C6. [IssuingDistributionPoint], with the four flags
    [only_contains_user_certs], [only_contains_ca_certs], [indirect_crl]
    and [only_contains_attribute_certs]: construction raises when none of
    them is true and [full_name], [relative_name] and [only_some_reasons]
    are [None] (the empty extension); it raises, whatever the other
    arguments, when more than one of them is true; and it returns the value
    holding its arguments when exactly one of them is true and the other
    three arguments are [None]. *)
Theorem IssuingDistributionPoint_flags
    `{NameModule}
    (only_contains_user_certs only_contains_ca_certs indirect_crl
     only_contains_attribute_certs : bool) :
  let flags :=
    Nat.b2n only_contains_user_certs + Nat.b2n only_contains_ca_certs
    + Nat.b2n indirect_crl + Nat.b2n only_contains_attribute_certs in
  (flags = 0 →
   IssuingDistributionPoint.__init__ None None
     only_contains_user_certs only_contains_ca_certs None
     indirect_crl only_contains_attribute_certs
   = Raise (ValueError
              "Cannot create empty extension: if only_contains_user_certs, only_contains_ca_certs, indirect_crl, and only_contains_attribute_certs are all False, then either full_name, relative_name, or only_some_reasons must have a value."))
  ∧ (1 < flags →
     ∀ full_name relative_name only_some_reasons,
       ∃ msg,
         IssuingDistributionPoint.__init__ full_name relative_name
           only_contains_user_certs only_contains_ca_certs only_some_reasons
           indirect_crl only_contains_attribute_certs
         = Raise (ValueError msg))
  ∧ (flags = 1 →
     IssuingDistributionPoint.__init__ None None
       only_contains_user_certs only_contains_ca_certs None
       indirect_crl only_contains_attribute_certs
     = Return
         {| IssuingDistributionPoint._only_contains_user_certs :=
              only_contains_user_certs;
            IssuingDistributionPoint._only_contains_ca_certs :=
              only_contains_ca_certs;
            IssuingDistributionPoint._indirect_crl := indirect_crl;
            IssuingDistributionPoint._only_contains_attribute_certs :=
              only_contains_attribute_certs;
            IssuingDistributionPoint._only_some_reasons := None;
            IssuingDistributionPoint._full_name := None;
            IssuingDistributionPoint._relative_name := None |}).
Proof.
  cbn zeta. split; [|split].
  - destruct only_contains_user_certs, only_contains_ca_certs, indirect_crl,
      only_contains_attribute_certs; cbn; intros Hn;
      try discriminate; reflexivity.
  - intros Hn full_name relative_name only_some_reasons.
    unfold IssuingDistributionPoint.__init__.
    destruct (truthy only_some_reasons
              && DistributionPoint.has_invalid_reason only_some_reasons);
      cbn; [eexists; reflexivity|].
    destruct only_contains_user_certs, only_contains_ca_certs, indirect_crl,
      only_contains_attribute_certs; cbn in Hn |- *;
      try lia; eexists; reflexivity.
  - destruct only_contains_user_certs, only_contains_ca_certs, indirect_crl,
      only_contains_attribute_certs; cbn; intros Hn;
      try discriminate; reflexivity.
Qed.

Lemma IssuingDistributionPoint_flags_witness :
  IssuingDistributionPoint.__init__ (H := example_names)
    None None false false None false false
  = Raise (ValueError
             "Cannot create empty extension: if only_contains_user_certs, only_contains_ca_certs, indirect_crl, and only_contains_attribute_certs are all False, then either full_name, relative_name, or only_some_reasons must have a value.")
  ∧ (∃ msg,
       IssuingDistributionPoint.__init__ (H := example_names)
         (Some [DNSName "example.com"]) None true false None true false
       = Raise (ValueError msg))
  ∧ IssuingDistributionPoint.__init__ (H := example_names)
      None None false false None true false
    = Return
        {| IssuingDistributionPoint._only_contains_user_certs := false;
           IssuingDistributionPoint._only_contains_ca_certs := false;
           IssuingDistributionPoint._indirect_crl := true;
           IssuingDistributionPoint._only_contains_attribute_certs := false;
           IssuingDistributionPoint._only_some_reasons := None;
           IssuingDistributionPoint._full_name := None;
           IssuingDistributionPoint._relative_name := None |}.
Proof.
  split; [|split].
  - apply (IssuingDistributionPoint_flags (H := example_names)
             false false false false).
    reflexivity.
  - apply (IssuingDistributionPoint_flags (H := example_names)
             true false true false).
    cbn. lia.
  - apply (IssuingDistributionPoint_flags (H := example_names)
             false false true false).
    reflexivity.
Defined.

(** ** NameConstraints *)

Section NameConstraints_ip.
Context `{NameModule}.
Implicit Types (tree before after : list GeneralName).

Lemma _validate_ip_name_bare before after address :
  isinstance_network address = false →
  NameConstraints._validate_ip_name (before ++ IPAddress address :: after)%list
  = Raise (TypeError
             "IPAddress name constraints must be an IPv4Network or IPv6Network object").
Proof.
  intros Hbare. unfold NameConstraints._validate_ip_name.
  rewrite existsb_app. cbn. rewrite Hbare. cbn.
  rewrite orb_true_r. reflexivity.
Qed.

Lemma _validate_ip_name_networks tree :
  Forall (fun name => ¬ NameConstraints.bare_address name) tree →
  NameConstraints._validate_ip_name tree = Return tt.
Proof.
  intros Hall. unfold NameConstraints._validate_ip_name.
  replace (existsb _ tree) with false; [reflexivity|].
  symmetry. induction Hall as [|name tree Hname _ IH]; cbn; [reflexivity|].
  rewrite IH, orb_false_r.
  destruct name as [| | | | |value|]; try reflexivity.
  destruct (isinstance_network value) eqn:E; [reflexivity|].
  exfalso. apply Hname. exists value. split; [reflexivity | exact E].
Qed.

(** [_validate_ip_name] has one way to fail. *)
Lemma _validate_ip_name_cases tree :
  NameConstraints._validate_ip_name tree = Return tt
  ∨ NameConstraints._validate_ip_name tree
    = Raise (TypeError
               "IPAddress name constraints must be an IPv4Network or IPv6Network object").
Proof.
  unfold NameConstraints._validate_ip_name.
  destruct (existsb _ tree); [right | left]; reflexivity.
Qed.

Lemma truthy_middle before after (name : GeneralName) :
  truthy (before ++ name :: after)%list = true.
Proof. destruct before; reflexivity. Qed.

Lemma network_not_bare network :
  isinstance_network network = true →
  ¬ NameConstraints.bare_address (IPAddress network).
Proof. intros Hn (value & [= <-] & Hv). congruence. Qed.

Lemma NameConstraints_valid permitted excluded :
  NameConstraints.valid_subtrees permitted →
  NameConstraints.valid_subtrees excluded →
  permitted ≠ None ∨ excluded ≠ None →
  NameConstraints.__init__ permitted excluded
  = Return {| NameConstraints._permitted_subtrees := permitted;
              NameConstraints._excluded_subtrees := excluded |}.
Proof.
  intros Hp He Hsome. unfold NameConstraints.__init__.
  destruct permitted as [[|p permitted]|], excluded as [[|e excluded]|];
    cbn in Hp, He |- *; try (destruct Hp; congruence);
    try (destruct He; congruence).
  - destruct Hp as [_ Hp], He as [_ He].
    rewrite (_validate_ip_name_networks _ Hp). cbn.
    rewrite (_validate_ip_name_networks _ He). reflexivity.
  - destruct Hp as [_ Hp].
    rewrite (_validate_ip_name_networks _ Hp). reflexivity.
  - destruct He as [_ He].
    rewrite (_validate_ip_name_networks _ He). reflexivity.
  - destruct Hsome; congruence.
Qed.

End NameConstraints_ip.

(** C7, as the code has it.  [NameConstraints], for a list of subtrees that
    holds an [IPAddress] general name whose value is a bare address:
    construction raises the
    [TypeError] when the list is passed as [permitted_subtrees], and when it
    is passed as [excluded_subtrees] next to a [permitted_subtrees] that is
    not the empty list (an empty one is refused first, and whatever
    [permitted_subtrees] is, construction fails); with the address replaced
    by a network object and the other invariants holding (no other bare
    address, the other argument [None] or a non-empty list of the same
    kind), construction returns the value holding both arguments. *)
Theorem NameConstraints_ip_address_network
    `{NameModule} (before after : list GeneralName)
    (address network : _IPADDRESS_TYPES) :
  isinstance_network address = false →
  isinstance_network network = true →
  let bad := (before ++ IPAddress address :: after)%list in
  let good := (before ++ IPAddress network :: after)%list in
  (∀ tree,
     NameConstraints.__init__ (Some bad) tree
     = Raise (TypeError
                "IPAddress name constraints must be an IPv4Network or IPv6Network object"))
  ∧ (∀ tree, tree ≠ Some [] →
       NameConstraints.__init__ tree (Some bad)
       = Raise (TypeError
                  "IPAddress name constraints must be an IPv4Network or IPv6Network object"))
  ∧ (∀ tree, fails (NameConstraints.__init__ tree (Some bad)))
  ∧ (∀ tree,
       NameConstraints.valid_subtrees tree →
       Forall (fun name => ¬ NameConstraints.bare_address name) before →
       Forall (fun name => ¬ NameConstraints.bare_address name) after →
       NameConstraints.__init__ (Some good) tree
       = Return {| NameConstraints._permitted_subtrees := Some good;
                   NameConstraints._excluded_subtrees := tree |}
       ∧ NameConstraints.__init__ tree (Some good)
         = Return {| NameConstraints._permitted_subtrees := tree;
                     NameConstraints._excluded_subtrees := Some good |}).
Proof.
  intros Haddress Hnetwork bad good.
  assert (∀ tree, tree ≠ Some [] →
            NameConstraints.__init__ tree (Some bad)
            = Raise (TypeError
                       "IPAddress name constraints must be an IPv4Network or IPv6Network object"))
    as Hexcluded.
  { intros [[|name tree]|] Hne; [congruence| |];
      unfold NameConstraints.__init__; cbn.
    - destruct (_validate_ip_name_cases (name :: tree)) as [-> | ->]; cbn;
        [|reflexivity].
      subst bad. rewrite truthy_middle; cbn.
      rewrite _validate_ip_name_bare by exact Haddress. reflexivity.
    - subst bad. rewrite truthy_middle; cbn.
      rewrite _validate_ip_name_bare by exact Haddress. reflexivity. }
  split; [|split; [exact Hexcluded|split]].
  - intros tree. unfold NameConstraints.__init__; cbn.
    subst bad. rewrite truthy_middle; cbn.
    rewrite _validate_ip_name_bare by exact Haddress. reflexivity.
  - intros [[|name tree]|].
    + eexists. reflexivity.
    + eexists. apply Hexcluded. discriminate.
    + eexists. apply Hexcluded. discriminate.
  - intros tree Htree Hbefore Hafter.
    assert (NameConstraints.valid_subtrees (Some good)) as Hgood.
    { split; [subst good; destruct before; discriminate|].
      apply Forall_app. split; [exact Hbefore|].
      constructor; [apply network_not_bare, Hnetwork | exact Hafter]. }
    split; apply NameConstraints_valid; auto.
Qed.

Lemma NameConstraints_ip_address_network_witness :
  let address := IPv4Address 3232235777 in
  let network := IPv4Network 3232235776 24 in
  NameConstraints.__init__ (H := example_names)
    (Some [IPAddress address]) None
  = Raise (TypeError
             "IPAddress name constraints must be an IPv4Network or IPv6Network object")
  ∧ NameConstraints.__init__ (H := example_names)
      (Some [DNSName "example.com"]) (Some [IPAddress address])
    = Raise (TypeError
               "IPAddress name constraints must be an IPv4Network or IPv6Network object")
  ∧ NameConstraints.__init__ (H := example_names)
      (Some [IPAddress network]) None
    = Return {| NameConstraints._permitted_subtrees :=
                  Some [IPAddress network];
                NameConstraints._excluded_subtrees := None |}.
Proof.
  intros address network.
  pose proof (NameConstraints_ip_address_network (H := example_names)
                [] [] address network eq_refl eq_refl)
    as (Hpermitted & Hexcluded & _ & Hgood).
  split; [apply Hpermitted|]. split.
  - apply Hexcluded. discriminate.
  - apply (Hgood None); [exact I | constructor | constructor].
Defined.

(** C7, at [permitted_subtrees=[]] with a bare address in
    [excluded_subtrees]: construction fails, but with the [ValueError] on
    the empty list, which is raised before [excluded_subtrees] is looked
    at, and not with a [TypeError]. *)
Lemma NameConstraints_bare_address_after_empty_permitted :
  NameConstraints.__init__ (H := example_names)
    (Some []) (Some [IPAddress (IPv4Address 3232235777)])
  = Raise (ValueError "permitted_subtrees must be a non-empty list or None")
  ∧ ¬ ∃ msg,
        NameConstraints.__init__ (H := example_names)
          (Some []) (Some [IPAddress (IPv4Address 3232235777)])
        = Raise (TypeError msg).
Proof.
  split; [reflexivity|]. intros [msg Hmsg]. discriminate.
Qed.

(** The order of the guards: an empty [permitted_subtrees] is refused with
    [ValueError] before [excluded_subtrees] is looked at. *)
Example NameConstraints_empty_permitted_first :
  NameConstraints.__init__ (H := example_names)
    (Some []) (Some [IPAddress (IPv4Address 3232235777)])
  = Raise (ValueError "permitted_subtrees must be a non-empty list or None").
Proof. reflexivity. Qed.

(** ** TLSFeature *)

(** C8, at the empty list: the constructor raises [TypeError], not a
    [ValueError], and the exception is the very one raised for a list with
    an element that is not a [TLSFeatureType]. *)
Lemma TLSFeature_empty_TypeError :
  TLSFeature.__init__ []
  = Raise (TypeError
             "features must be a list of elements from the TLSFeatureType enum")
  ∧ (¬ ∃ msg, TLSFeature.__init__ [] = Raise (ValueError msg))
  ∧ TLSFeature.__init__ [] = TLSFeature.__init__ [not_instance (py_int 3)].
Proof.
  split; [reflexivity|]. split; [|reflexivity].
  intros [msg Hmsg]. discriminate.
Qed.

(** C8, as the code has it: construction with an empty feature list fails
    with [TypeError], the exception (class and message) also raised when
    an element is not a [TLSFeatureType], so the two failures cannot be
    told apart; construction with a non-empty list of [TLSFeatureType]
    elements returns the value holding the list. *)
Theorem TLSFeature_init_features (features : list (object TLSFeatureType)) :
  (features = [] ∨ Exists (fun x => isinstance x = false) features →
   TLSFeature.__init__ features
   = Raise (TypeError
              "features must be a list of elements from the TLSFeatureType enum"))
  ∧ (features ≠ [] → Forall (fun x => isinstance x = true) features →
     TLSFeature.__init__ features
     = Return {| TLSFeature._features := features |}).
Proof.
  unfold TLSFeature.__init__. split.
  - intros [-> | Hex]; [reflexivity|].
    replace (forallb isinstance features) with false; [reflexivity|].
    symmetry. induction Hex as [x features Hx | x features _ IH]; cbn.
    + rewrite Hx. reflexivity.
    + rewrite IH. apply andb_false_r.
  - intros Hne Hall.
    replace (forallb isinstance features) with true.
    + destruct features; [congruence | reflexivity].
    + symmetry. clear Hne.
      induction Hall as [|x features Hx _ IH]; cbn; [reflexivity|].
      rewrite Hx, IH. reflexivity.
Qed.

Lemma TLSFeature_init_features_witness :
  TLSFeature.__init__ []
  = Raise (TypeError
             "features must be a list of elements from the TLSFeatureType enum")
  ∧ TLSFeature.__init__ [instance status_request; not_instance (py_int 3)]
    = Raise (TypeError
               "features must be a list of elements from the TLSFeatureType enum")
  ∧ TLSFeature.__init__ [instance status_request; instance status_request_v2]
    = Return {| TLSFeature._features :=
                  [instance status_request; instance status_request_v2] |}.
Proof.
  split; [|split].
  - apply (TLSFeature_init_features []). left. reflexivity.
  - apply (TLSFeature_init_features
             [instance status_request; not_instance (py_int 3)]).
    right. right. left. reflexivity.
  - apply (TLSFeature_init_features
             [instance status_request; instance status_request_v2]).
    + discriminate.
    + repeat constructor.
Defined.

(** * Further properties *)

(** ** Extensions: lookup by class, and how the two lookups relate *)

Section for_class.
Context `{Catalogue}.
Implicit Types (it before after : list Extension.t) (extclass : cls.extension).

Lemma isinstance_ext_type_of (v : ExtensionType) extclass :
  extclass ≠ cls.ExtensionType →
  Extensions.isinstance_ext v extclass = bool_decide (type_of v = extclass).
Proof.
  intros Hbase. unfold Extensions.isinstance_ext.
  rewrite bool_decide_eq_false_2 by exact Hbase. reflexivity.
Qed.

Lemma for_class_no_match it extclass :
  Forall
    (fun ext => Extensions.isinstance_ext (Extension.value ext) extclass = false)
    it →
  Extensions.for_class it extclass
  = Raise (ExtensionNotFound
             ("No " +:+ format_class extclass +:+ " extension was found")
             (class_oid extclass)).
Proof.
  induction 1 as [|ext it Hne _ IH]; cbn; [reflexivity|].
  rewrite Hne. exact IH.
Qed.

Lemma for_class_skip before it extclass :
  Forall
    (fun ext => Extensions.isinstance_ext (Extension.value ext) extclass = false)
    before →
  Extensions.for_class (before ++ it)%list extclass
  = Extensions.for_class it extclass.
Proof.
  induction 1 as [|ext before' Hne _ IH]; cbn; [reflexivity|].
  rewrite Hne. exact IH.
Qed.

(** Either loop returns an element of the list it runs over, one that
    passes its test. *)
Lemma for_class_Return it extclass ext :
  Extensions.for_class it extclass = Return ext →
  ext ∈ it
  ∧ Extensions.isinstance_ext (Extension.value ext) extclass = true.
Proof.
  induction it as [|e it IH]; cbn; [discriminate|].
  destruct (Extensions.isinstance_ext (Extension.value e) extclass) eqn:E.
  - intros [= <-]. split; [left | exact E].
  - intros Hr. destruct (IH Hr) as [Hin Hi]. split; [right; exact Hin | exact Hi].
Qed.

Lemma for_oid_Return it (oid : ObjectIdentifier) ext :
  Extensions.for_oid it oid = Return ext →
  ext ∈ it ∧ Extension.oid ext = oid.
Proof.
  induction it as [|e it IH]; cbn; [discriminate|].
  destruct (decide (Extension.oid e = oid)) as [Heq|Hne].
  - rewrite bool_decide_eq_true_2 by exact Heq.
    intros [= <-]. split; [left | exact Heq].
  - rewrite bool_decide_eq_false_2 by exact Hne.
    intros Hr. destruct (IH Hr) as [Hin Hi]. split; [right; exact Hin | exact Hi].
Qed.

Lemma for_oid_Raise it (oid : ObjectIdentifier) e :
  Extensions.for_oid it oid = Raise e →
  e = ExtensionNotFound ("No " +:+ format_oid oid +:+ " extension was found") oid
  ∧ Forall (fun ext => Extension.oid ext ≠ oid) it.
Proof.
  induction it as [|x it IH]; cbn.
  - intros [= <-]. split; [reflexivity | constructor].
  - destruct (decide (Extension.oid x = oid)) as [Heq|Hne].
    + rewrite bool_decide_eq_true_2 by exact Heq. discriminate.
    + rewrite bool_decide_eq_false_2 by exact Hne.
      intros Hr. destruct (IH Hr) as [-> Hall].
      split; [reflexivity | constructor; assumption].
Qed.

(** The two loops agree on a list in which the test of one holds exactly
    where the test of the other does. *)
Lemma for_class_for_oid it extclass (oid : ObjectIdentifier) :
  Forall
    (fun ext =>
       Extensions.isinstance_ext (Extension.value ext) extclass = true
       ↔ Extension.oid ext = oid)
    it →
  (∃ ext, Extensions.for_class it extclass = Return ext
          ∧ Extensions.for_oid it oid = Return ext)
  ∨ (Extensions.for_class it extclass
     = Raise (ExtensionNotFound
                ("No " +:+ format_class extclass +:+ " extension was found")
                (class_oid extclass))
     ∧ Extensions.for_oid it oid
       = Raise (ExtensionNotFound
                  ("No " +:+ format_oid oid +:+ " extension was found") oid)).
Proof.
  induction 1 as [|e it He _ IH]; cbn; [right; split; reflexivity|].
  destruct (Extensions.isinstance_ext (Extension.value e) extclass) eqn:E.
  - rewrite bool_decide_eq_true_2 by (apply He; reflexivity).
    left. exists e. split; reflexivity.
  - rewrite bool_decide_eq_false_2; [exact IH|].
    intros Hoid. apply He in Hoid. congruence.
Qed.

End for_class.

(** X1. [get_extension_for_class] with a class of the catalogue other than
    [UnrecognizedExtension] (and other than the base class): when some
    contained extension has a value of that class, the call returns the
    first such extension in insertion order; when none has, it raises
    [ExtensionNotFound] carrying the class-level [oid] of the class. *)
Theorem get_extension_for_class_first_match
    `{Catalogue} (self : Extensions.t) (extclass : cls.extension) :
  extclass ≠ cls.UnrecognizedExtension →
  extclass ≠ cls.ExtensionType →
  (Exists (fun ext => type_of (Extension.value ext) = extclass)
     (Extensions._extensions self) →
   ∃ (before : list Extension.t) ext after,
     Extensions._extensions self = (before ++ ext :: after)%list
     ∧ Forall (fun ext' => type_of (Extension.value ext') ≠ extclass) before
     ∧ type_of (Extension.value ext) = extclass
     ∧ Extensions.get_extension_for_class self extclass = Return ext)
  ∧ (Forall (fun ext => type_of (Extension.value ext) ≠ extclass)
       (Extensions._extensions self) →
     Extensions.get_extension_for_class self extclass
     = Raise (ExtensionNotFound
                ("No " +:+ format_class extclass +:+ " extension was found")
                (class_oid extclass))).
Proof.
  intros Hunrec Hbase.
  unfold Extensions.get_extension_for_class, Extensions.__iter__.
  rewrite bool_decide_eq_false_2 by exact Hunrec.
  assert (∀ it : list Extension.t,
            Forall (fun ext => type_of (Extension.value ext) ≠ extclass) it →
            Forall
              (fun ext =>
                 Extensions.isinstance_ext (Extension.value ext) extclass
                 = false) it) as Hno.
  { intros it Hall. eapply Forall_impl; [exact Hall|]. intros ext Hne.
    rewrite isinstance_ext_type_of by exact Hbase.
    apply bool_decide_eq_false_2, Hne. }
  split.
  - generalize (Extensions._extensions self). intros it Hex.
    induction it as [|e it IH]; [inversion Hex|].
    destruct (decide (type_of (Extension.value e) = extclass)) as [Heq|Hne].
    + exists [], e, it. repeat split; [constructor | exact Heq |].
      cbn. rewrite isinstance_ext_type_of by exact Hbase.
      rewrite bool_decide_eq_true_2 by exact Heq. reflexivity.
    + inversion Hex as [? ? He|? ? Hit]; subst; [contradiction|].
      destruct (IH Hit) as (before & ext & after & -> & Hb & Hm & Hr).
      exists (e :: before), ext, after.
      repeat split; [constructor; assumption | exact Hm |].
      cbn. rewrite isinstance_ext_type_of by exact Hbase.
      rewrite bool_decide_eq_false_2 by exact Hne. exact Hr.
  - intros Hall. apply for_class_no_match, Hno, Hall.
Qed.

Lemma get_extension_for_class_first_match_witness :
  (∃ (before : list (@Extension.t example_catalogue)) ext after,
     Extensions._extensions example_extensions = (before ++ ext :: after)%list
     ∧ Forall (fun ext' => type_of (Extension.value ext') ≠ cls.KeyUsage)
         before
     ∧ type_of (Extension.value ext) = cls.KeyUsage
     ∧ Extensions.get_extension_for_class example_extensions cls.KeyUsage
       = Return ext)
  ∧ Extensions.get_extension_for_class example_extensions cls.TLSFeature
    = Raise (ExtensionNotFound "No <class> extension was found" TLS_FEATURE).
Proof.
  split.
  - apply (get_extension_for_class_first_match
             example_extensions cls.KeyUsage); [discriminate..|].
    left. reflexivity.
  - apply (get_extension_for_class_first_match
             example_extensions cls.TLSFeature); [discriminate..|].
    repeat constructor; discriminate.
Defined.

(** X2. [get_extension_for_oid] is sound and raises nothing else: an
    extension it returns is one of the container's and has the identifier
    sought; and when it raises, the exception is [ExtensionNotFound]
    carrying that identifier and no contained extension has it. *)
Theorem get_extension_for_oid_sound
    `{Catalogue} (self : Extensions.t) (oid : ObjectIdentifier) :
  (∀ ext, Extensions.get_extension_for_oid self oid = Return ext →
          ext ∈ Extensions._extensions self ∧ Extension.oid ext = oid)
  ∧ (∀ e, Extensions.get_extension_for_oid self oid = Raise e →
          e = ExtensionNotFound
                ("No " +:+ format_oid oid +:+ " extension was found") oid
          ∧ Forall (fun ext => Extension.oid ext ≠ oid)
              (Extensions._extensions self)).
Proof.
  unfold Extensions.get_extension_for_oid, Extensions.__iter__. split.
  - intros ext. apply for_oid_Return.
  - intros e. apply for_oid_Raise.
Qed.

Lemma get_extension_for_oid_sound_witness :
  (example_unrecognized true ∈ Extensions._extensions example_extensions
   ∧ Extension.oid (example_unrecognized true)
     = {| dotted_string := "1.2.3.4" |})
  ∧ Forall (fun ext => Extension.oid ext ≠ TLS_FEATURE)
      (Extensions._extensions example_extensions).
Proof.
  split.
  - apply (get_extension_for_oid_sound
             example_extensions {| dotted_string := "1.2.3.4" |}).
    reflexivity.
  - eapply (get_extension_for_oid_sound example_extensions TLS_FEATURE).
    reflexivity.
Defined.

(** X3. Building a container and looking up in it: the extension put first
    is the one returned for its own identifier, whatever follows it; for
    any other identifier the lookup is the lookup in the rest; and
    extensions added after the others never change a lookup that already
    succeeds. *)
Theorem get_extension_for_oid_build
    `{Catalogue} (ext : Extension.t) (extensions more : list Extension.t)
    (oid : ObjectIdentifier) :
  Extensions.get_extension_for_oid
    (Extensions.__init__ (ext :: extensions)) (Extension.oid ext)
  = Return ext
  ∧ (oid ≠ Extension.oid ext →
     Extensions.get_extension_for_oid
       (Extensions.__init__ (ext :: extensions)) oid
     = Extensions.get_extension_for_oid (Extensions.__init__ extensions) oid)
  ∧ (∀ found,
       Extensions.get_extension_for_oid (Extensions.__init__ extensions) oid
       = Return found →
       Extensions.get_extension_for_oid
         (Extensions.__init__ (extensions ++ more)%list) oid
       = Return found).
Proof.
  unfold Extensions.get_extension_for_oid, Extensions.__iter__; cbn.
  split; [|split].
  - rewrite bool_decide_eq_true_2 by reflexivity. reflexivity.
  - intros Hne. rewrite bool_decide_eq_false_2 by congruence. reflexivity.
  - intros found. induction extensions as [|e extensions IH]; cbn;
      [discriminate|].
    destruct (bool_decide (Extension.oid e = oid)); [trivial | exact IH].
Qed.

Lemma get_extension_for_oid_build_witness :
  Extensions.get_extension_for_oid
    (Extensions.__init__
       [example_unrecognized false; example_unrecognized true]) KEY_USAGE
  = Extensions.get_extension_for_oid
      (Extensions.__init__ [example_unrecognized true]) KEY_USAGE
  ∧ Extensions.get_extension_for_oid
      (Extensions.__init__
         ([example_unrecognized true] ++ [example_unrecognized false])%list)
      {| dotted_string := "1.2.3.4" |}
    = Return (example_unrecognized true).
Proof.
  split.
  - apply (get_extension_for_oid_build
             (example_unrecognized false) [example_unrecognized true] []
             KEY_USAGE).
    discriminate.
  - apply (get_extension_for_oid_build
             (example_unrecognized false) [example_unrecognized true]
             [example_unrecognized false] {| dotted_string := "1.2.3.4" |}).
    reflexivity.
Defined.

(** X4. In a container where an extension has a value of class [extclass]
    exactly when its identifier is the class-level [oid] of [extclass],
    lookup by that class and lookup by that identifier give the same
    outcome: the same extension, or [ExtensionNotFound] carrying that
    identifier from both. *)
Theorem get_extension_for_class_agrees_with_oid
    `{Catalogue} (self : Extensions.t) (extclass : cls.extension) :
  extclass ≠ cls.UnrecognizedExtension →
  extclass ≠ cls.ExtensionType →
  Forall
    (fun ext =>
       type_of (Extension.value ext) = extclass
       ↔ Extension.oid ext = class_oid extclass)
    (Extensions._extensions self) →
  (∃ ext,
     Extensions.get_extension_for_class self extclass = Return ext
     ∧ Extensions.get_extension_for_oid self (class_oid extclass) = Return ext)
  ∨ (Extensions.get_extension_for_class self extclass
     = Raise (ExtensionNotFound
                ("No " +:+ format_class extclass +:+ " extension was found")
                (class_oid extclass))
     ∧ Extensions.get_extension_for_oid self (class_oid extclass)
       = Raise (ExtensionNotFound
                  ("No " +:+ format_oid (class_oid extclass)
                   +:+ " extension was found")
                  (class_oid extclass))).
Proof.
  intros Hunrec Hbase Hall.
  unfold Extensions.get_extension_for_class, Extensions.get_extension_for_oid.
  rewrite bool_decide_eq_false_2 by exact Hunrec.
  apply for_class_for_oid.
  eapply Forall_impl; [exact Hall|]. intros ext Hext; cbn.
  rewrite isinstance_ext_type_of by exact Hbase.
  rewrite bool_decide_eq_true. exact Hext.
Qed.

Lemma get_extension_for_class_agrees_with_oid_witness :
  (∃ ext,
     Extensions.get_extension_for_class example_extensions cls.KeyUsage
     = Return ext
     ∧ Extensions.get_extension_for_oid example_extensions KEY_USAGE
       = Return ext)
  ∨ (Extensions.get_extension_for_class example_extensions cls.KeyUsage
     = Raise (ExtensionNotFound "No <class> extension was found" KEY_USAGE)
     ∧ Extensions.get_extension_for_oid example_extensions KEY_USAGE
       = Raise (ExtensionNotFound
                  "No 2.5.29.15 extension was found" KEY_USAGE)).
Proof.
  apply (get_extension_for_class_agrees_with_oid
           example_extensions cls.KeyUsage); [discriminate..|].
  repeat constructor; cbn; intros; discriminate.
Defined.

(** ** DistributionPoint: the constructor's contract *)

Section DistributionPoint_contract.
Context `{NameModule}.

Lemma truthy_frozenset (s : gset ReasonFlags) :
  truthy s = true ↔ s ≠ ∅.
Proof. unfold truthy, frozenset_truthy. apply bool_decide_eq_true. Qed.

Lemma has_invalid_reason_false (reasons : option (gset ReasonFlags)) :
  DistributionPoint.has_invalid_reason reasons = false
  ↔ ∀ s, reasons = Some s → (unspecified ∉ s) ∧ (remove_from_crl ∉ s).
Proof.
  destruct reasons as [s|]; cbn.
  - rewrite orb_false_iff, !bool_decide_eq_false. split.
    + intros Hs s' [= <-]. exact Hs.
    + intros Hs. apply Hs. reflexivity.
  - split; [intros _ s; discriminate | reflexivity].
Qed.

Lemma has_invalid_reason_empty (reasons : option (gset ReasonFlags)) :
  truthy reasons = false → DistributionPoint.has_invalid_reason reasons = false.
Proof.
  destruct reasons as [s|]; [|reflexivity]. cbn.
  unfold truthy, frozenset_truthy. rewrite bool_decide_eq_false.
  intros Hs. apply dec_stable in Hs. subst s. reflexivity.
Qed.
End DistributionPoint_contract.

(** X5. [DistributionPoint] construction with [full_name] and [crl_issuer]
    passed as lists (or [None]) returns, with the value holding the four
    arguments unchanged, exactly when: [full_name] and [relative_name] are
    not both true; [reasons], if a set, holds neither
    [unspecified] nor [remove_from_crl]; and a non-empty [reasons] comes
    with a true [crl_issuer], [full_name] or [relative_name].  Every
    failure is a [ValueError]. *)
Theorem DistributionPoint_init_contract
    `{NameModule} full_name relative_name reasons crl_issuer :
  let valid :=
    (truthy full_name = false ∨ truthy relative_name = false)
    ∧ (∀ s, reasons = Some s → (unspecified ∉ s) ∧ (remove_from_crl ∉ s))
    ∧ (truthy reasons = true →
       truthy crl_issuer = true ∨ truthy full_name = true
       ∨ truthy relative_name = true) in
  (valid ↔
   DistributionPoint.__init__ full_name relative_name reasons crl_issuer
   = Return {| DistributionPoint._full_name := full_name;
               DistributionPoint._relative_name := relative_name;
               DistributionPoint._reasons := reasons;
               DistributionPoint._crl_issuer := crl_issuer |})
  ∧ (∀ dp,
       DistributionPoint.__init__ full_name relative_name reasons crl_issuer
       = Return dp →
       DistributionPoint.full_name dp = full_name
       ∧ DistributionPoint.relative_name dp = relative_name
       ∧ DistributionPoint.reasons dp = reasons
       ∧ DistributionPoint.crl_issuer dp = crl_issuer)
  ∧ (∀ e,
       DistributionPoint.__init__ full_name relative_name reasons crl_issuer
       = Raise e →
       ∃ msg, e = ValueError msg).
Proof.
  cbn zeta. rewrite <- has_invalid_reason_false.
  unfold DistributionPoint.__init__.
  destruct (truthy reasons) eqn:Hr.
  2: rewrite (has_invalid_reason_empty _ Hr).
  all: destruct (truthy full_name), (truthy relative_name),
         (truthy crl_issuer); cbn.
  all: try destruct (DistributionPoint.has_invalid_reason reasons); cbn.
  all: split; [|split];
    [ split; [intros (Hn & Hi & Hs); try reflexivity; try discriminate;
              try (destruct Hn; discriminate);
              try (destruct (Hs eq_refl) as [?|[?|?]]; discriminate)
             | try discriminate; intros _; repeat split; auto; discriminate ]
    | intros dp [= <-]; repeat split
    | intros e [= <-]; eexists; reflexivity ].
Qed.

Lemma DistributionPoint_init_contract_witness :
  DistributionPoint.__init__ (H := example_names)
    None (Some example_rdn) (Some {[ key_compromise; superseded ]}) None
  = Return {| DistributionPoint._full_name := None;
              DistributionPoint._relative_name := Some example_rdn;
              DistributionPoint._reasons :=
                Some {[ key_compromise; superseded ]};
              DistributionPoint._crl_issuer := None |}
  ∧ ∃ msg, ValueError
             "unspecified and remove_from_crl are not valid reasons in a DistributionPoint"
           = ValueError msg.
Proof.
  split.
  - apply (DistributionPoint_init_contract (H := example_names)
             None (Some example_rdn)
             (Some {[ key_compromise; superseded ]}) None).
    split; [left; reflexivity|]. split.
    + intros s [= <-].
      split; intros [Hin|Hin]%elem_of_union;
        apply elem_of_singleton in Hin; discriminate.
    + intros _. right. right. reflexivity.
  - apply (DistributionPoint_init_contract (H := example_names)
             None (Some example_rdn) (Some {[ remove_from_crl ]}) None).
    reflexivity.
Defined.

(** ** The reason-flag tables *)

Lemma _CRLREASONFLAGS_lookup (r : ReasonFlags) :
  _CRLREASONFLAGS !! r
  = match r with
    | unspecified | remove_from_crl => None
    | _ => Some (Z.of_nat (ReasonFlags_index r))
    end.
Proof. destruct r; reflexivity. Qed.

Lemma _REASON_BIT_MAPPING_Some (n : Z) (r : ReasonFlags) :
  _REASON_BIT_MAPPING !! n = Some r →
  n = Z.of_nat (ReasonFlags_index r)
  ∧ r ≠ unspecified ∧ r ≠ remove_from_crl.
Proof.
  intros Hn. apply elem_of_list_to_map_2 in Hn.
  repeat (apply elem_of_cons in Hn as [[= -> ->]|Hn];
          [repeat split; discriminate|]).
  inversion Hn.
Qed.

(** X6. The two reason tables are inverse to each other: a bit position
    maps to a flag in [_REASON_BIT_MAPPING] exactly when that flag maps to
    that position in [_CRLREASONFLAGS]; the flags with a position are all
    but [unspecified] and [remove_from_crl], and the positions are 1 to
    8. *)
Theorem reason_tables_inverse (n : Z) (r : ReasonFlags) :
  (_REASON_BIT_MAPPING !! n = Some r ↔ _CRLREASONFLAGS !! r = Some n)
  ∧ (is_Some (_CRLREASONFLAGS !! r) ↔ r ≠ unspecified ∧ r ≠ remove_from_crl)
  ∧ (is_Some (_REASON_BIT_MAPPING !! n) ↔ (1 ≤ n ≤ 8)%Z).
Proof.
  split; [|split].
  - split.
    + intros Hn. apply _REASON_BIT_MAPPING_Some in Hn as (-> & Hu & Hr).
      destruct r; try reflexivity; contradiction.
    + rewrite _CRLREASONFLAGS_lookup.
      destruct r; intros [= <-]; reflexivity.
  - rewrite _CRLREASONFLAGS_lookup.
    destruct r; cbn; split; intros Hx;
      try (destruct Hx as [? Hx]; discriminate);
      try (destruct Hx; congruence);
      try (split; discriminate);
      eexists; reflexivity.
  - split.
    + intros [r' Hr']. apply _REASON_BIT_MAPPING_Some in Hr' as (-> & Hu & Hr).
      destruct r'; cbn; try lia; contradiction.
    + intros Hn.
      assert (n = 1 ∨ n = 2 ∨ n = 3 ∨ n = 4 ∨ n = 5 ∨ n = 6 ∨ n = 7 ∨ n = 8)%Z
        as Hcases by lia.
      destruct Hcases as [->|[->|[->|[->|[->|[->|[->| ->]]]]]]];
        eexists; reflexivity.
Qed.

Section accepted_reasons.
Context `{NameModule}.

Lemma valid_reason_bit_position (s : gset ReasonFlags) (r : ReasonFlags) :
  truthy (Some s) && DistributionPoint.has_invalid_reason (Some s) = false →
  r ∈ s →
  ∃ n : Z, _CRLREASONFLAGS !! r = Some n
           ∧ (1 ≤ n ≤ 8)%Z
           ∧ _REASON_BIT_MAPPING !! n = Some r.
Proof.
  intros Hguard Hr.
  assert (s ≠ ∅) as Hne by (intros ->; exact (not_elem_of_empty r Hr)).
  apply truthy_frozenset in Hne. cbn in Hguard, Hne.
  rewrite Hne in Hguard. cbn in Hguard.
  apply orb_false_iff in Hguard as [Hu Hrm].
  apply bool_decide_eq_false in Hu, Hrm.
  exists (Z.of_nat (ReasonFlags_index r)). rewrite _CRLREASONFLAGS_lookup.
  destruct r; try contradiction;
    (split; [reflexivity | split; [cbn; lia | reflexivity]]).
Qed.

Lemma DistributionPoint_init_reasons full_name relative_name reasons crl_issuer dp :
  DistributionPoint.__init__ full_name relative_name reasons crl_issuer
  = Return dp →
  DistributionPoint.reasons dp = reasons
  ∧ truthy reasons && DistributionPoint.has_invalid_reason reasons = false.
Proof.
  unfold DistributionPoint.__init__.
  destruct (truthy full_name && truthy relative_name); cbn; [discriminate|].
  destruct (truthy reasons && DistributionPoint.has_invalid_reason reasons);
    cbn; [discriminate|].
  destruct (truthy reasons && negb (truthy crl_issuer)
            && negb (truthy full_name || truthy relative_name));
    cbn; [discriminate|].
  intros [= <-]. split; reflexivity.
Qed.

Lemma IssuingDistributionPoint_init_reasons
    full_name relative_name user ca only_some_reasons indirect attribute idp :
  IssuingDistributionPoint.__init__ full_name relative_name user ca
    only_some_reasons indirect attribute = Return idp →
  IssuingDistributionPoint.only_some_reasons idp = only_some_reasons
  ∧ truthy only_some_reasons
    && DistributionPoint.has_invalid_reason only_some_reasons = false.
Proof.
  unfold IssuingDistributionPoint.__init__.
  destruct (truthy only_some_reasons
            && DistributionPoint.has_invalid_reason only_some_reasons);
    cbn; [discriminate|].
  repeat match goal with
         | |- context [raise_if ?c _] => destruct c; cbn; [discriminate|]
         end.
  intros [= <-]. split; reflexivity.
Qed.

End accepted_reasons.

(** X7. Every reason held by a constructed [DistributionPoint] (in
    [reasons]) or [IssuingDistributionPoint] (in [only_some_reasons]) has a
    bit position in [_CRLREASONFLAGS], between 1 and 8, which
    [_REASON_BIT_MAPPING] maps back to it. *)
Theorem constructed_reasons_have_bit_positions
    `{NameModule} (s : gset ReasonFlags) (r : ReasonFlags) :
  r ∈ s →
  (∀ full_name relative_name reasons crl_issuer dp,
     DistributionPoint.__init__ full_name relative_name reasons crl_issuer
     = Return dp →
     DistributionPoint.reasons dp = Some s →
     ∃ n : Z, _CRLREASONFLAGS !! r = Some n
              ∧ (1 ≤ n ≤ 8)%Z
              ∧ _REASON_BIT_MAPPING !! n = Some r)
  ∧ (∀ full_name relative_name user ca only_some_reasons indirect attribute
       idp,
       IssuingDistributionPoint.__init__ full_name relative_name user ca
         only_some_reasons indirect attribute = Return idp →
       IssuingDistributionPoint.only_some_reasons idp = Some s →
       ∃ n : Z, _CRLREASONFLAGS !! r = Some n
                ∧ (1 ≤ n ≤ 8)%Z
                ∧ _REASON_BIT_MAPPING !! n = Some r).
Proof.
  intros Hr. split.
  - intros full_name relative_name reasons crl_issuer dp Hinit Hs.
    apply DistributionPoint_init_reasons in Hinit as [Heq Hguard].
    rewrite Heq in Hs. rewrite Hs in Hguard.
    exact (valid_reason_bit_position s r Hguard Hr).
  - intros full_name relative_name user ca only_some_reasons indirect
      attribute idp Hinit Hs.
    apply IssuingDistributionPoint_init_reasons in Hinit as [Heq Hguard].
    rewrite Heq in Hs. rewrite Hs in Hguard.
    exact (valid_reason_bit_position s r Hguard Hr).
Qed.

Lemma constructed_reasons_have_bit_positions_witness :
  ∃ n : Z, _CRLREASONFLAGS !! superseded = Some n
           ∧ (1 ≤ n ≤ 8)%Z
           ∧ _REASON_BIT_MAPPING !! n = Some superseded.
Proof.
  assert (superseded ∈ ({[ key_compromise; superseded ]} : gset ReasonFlags))
    as Hin by (apply elem_of_union; right; apply elem_of_singleton; reflexivity).
  destruct (constructed_reasons_have_bit_positions (H := example_names)
              {[ key_compromise; superseded ]} superseded Hin) as [Hdp _].
  apply (Hdp None (Some example_rdn)
           (Some {[ key_compromise; superseded ]}) None
           {| DistributionPoint._full_name := None;
              DistributionPoint._relative_name := Some example_rdn;
              DistributionPoint._reasons :=
                Some {[ key_compromise; superseded ]};
              DistributionPoint._crl_issuer := None |});
    reflexivity.
Defined.

(** ** IssuingDistributionPoint: the constructor's contract *)

(** X8. [IssuingDistributionPoint] construction returns, with the value
    holding the seven arguments unchanged, exactly when:
    [only_some_reasons], if a set, holds neither [unspecified] nor
    [remove_from_crl]; at most one of the four flags is true; and a flag,
    [full_name], [relative_name] or [only_some_reasons] is true.  Every
    failure is a [ValueError]. *)
Theorem IssuingDistributionPoint_init_contract
    `{NameModule} full_name relative_name
    (only_contains_user_certs only_contains_ca_certs : bool)
    only_some_reasons (indirect_crl only_contains_attribute_certs : bool) :
  let flags :=
    Nat.b2n only_contains_user_certs + Nat.b2n only_contains_ca_certs
    + Nat.b2n indirect_crl + Nat.b2n only_contains_attribute_certs in
  let valid :=
    (∀ s, only_some_reasons = Some s →
          (unspecified ∉ s) ∧ (remove_from_crl ∉ s))
    ∧ (flags ≤ 1)%nat
    ∧ (flags = 1%nat ∨ truthy full_name = true ∨ truthy relative_name = true
       ∨ truthy only_some_reasons = true) in
  (valid ↔
   IssuingDistributionPoint.__init__ full_name relative_name
     only_contains_user_certs only_contains_ca_certs only_some_reasons
     indirect_crl only_contains_attribute_certs
   = Return
       {| IssuingDistributionPoint._only_contains_user_certs :=
            only_contains_user_certs;
          IssuingDistributionPoint._only_contains_ca_certs :=
            only_contains_ca_certs;
          IssuingDistributionPoint._indirect_crl := indirect_crl;
          IssuingDistributionPoint._only_contains_attribute_certs :=
            only_contains_attribute_certs;
          IssuingDistributionPoint._only_some_reasons := only_some_reasons;
          IssuingDistributionPoint._full_name := full_name;
          IssuingDistributionPoint._relative_name := relative_name |})
  ∧ (∀ e,
       IssuingDistributionPoint.__init__ full_name relative_name
         only_contains_user_certs only_contains_ca_certs only_some_reasons
         indirect_crl only_contains_attribute_certs
       = Raise e →
       ∃ msg, e = ValueError msg).
Proof.
  cbn zeta. rewrite <- has_invalid_reason_false.
  unfold IssuingDistributionPoint.__init__.
  destruct (truthy only_some_reasons) eqn:Hr.
  2: rewrite (has_invalid_reason_empty _ Hr).
  all: try destruct (DistributionPoint.has_invalid_reason only_some_reasons).
  all: destruct only_contains_user_certs, only_contains_ca_certs, indirect_crl,
         only_contains_attribute_certs, (truthy full_name),
         (truthy relative_name); cbn.
  all: split;
    [ split;
      [ intros (Hi & Hf & Hs); try reflexivity; try discriminate; try lia;
        destruct Hs as [?|[?|[?|?]]]; (discriminate || lia)
      | try discriminate; intros _; repeat split; auto; lia ]
    | intros e [= <-]; eexists; reflexivity ].
Qed.

Lemma IssuingDistributionPoint_init_contract_witness :
  IssuingDistributionPoint.__init__ (H := example_names)
    (Some [DNSName "crl.example.com"]) None false false
    (Some {[ key_compromise ]}) false false
  = Return
      {| IssuingDistributionPoint._only_contains_user_certs := false;
         IssuingDistributionPoint._only_contains_ca_certs := false;
         IssuingDistributionPoint._indirect_crl := false;
         IssuingDistributionPoint._only_contains_attribute_certs := false;
         IssuingDistributionPoint._only_some_reasons :=
           Some {[ key_compromise ]};
         IssuingDistributionPoint._full_name :=
           Some [DNSName "crl.example.com"];
         IssuingDistributionPoint._relative_name := None |}
  ∧ ∃ msg,
      ValueError
        "Only one of the following can be set to True: only_contains_user_certs, only_contains_ca_certs, indirect_crl, only_contains_attribute_certs"
      = ValueError msg.
Proof.
  split.
  - apply (IssuingDistributionPoint_init_contract (H := example_names)
             (Some [DNSName "crl.example.com"]) None false false
             (Some {[ key_compromise ]}) false false).
    split; [|split; [cbn; lia | right; left; reflexivity]].
    intros s [= <-].
    split; intros Hin; apply elem_of_singleton in Hin; discriminate.
  - apply (IssuingDistributionPoint_init_contract (H := example_names)
             None None true true None false false).
    reflexivity.
Defined.

(** X9. [IssuingDistributionPoint] does not test [full_name] against
    [relative_name]: the two names that [DistributionPoint] refuses
    together (both true) are accepted together here. *)
Theorem IssuingDistributionPoint_accepts_both_names
    `{NameModule} (full_name : option (list GeneralName))
    (relative_name : option RelativeDistinguishedName) :
  truthy full_name = true → truthy relative_name = true →
  DistributionPoint.__init__ full_name relative_name None None
  = Raise (ValueError
             "You cannot provide both full_name and relative_name, at least one must be None.")
  ∧ IssuingDistributionPoint.__init__ full_name relative_name
      false false None false false
    = Return
        {| IssuingDistributionPoint._only_contains_user_certs := false;
           IssuingDistributionPoint._only_contains_ca_certs := false;
           IssuingDistributionPoint._indirect_crl := false;
           IssuingDistributionPoint._only_contains_attribute_certs := false;
           IssuingDistributionPoint._only_some_reasons := None;
           IssuingDistributionPoint._full_name := full_name;
           IssuingDistributionPoint._relative_name := relative_name |}.
Proof.
  intros Hf Hr. split.
  - apply DistributionPoint_both_names_true; assumption.
  - unfold IssuingDistributionPoint.__init__. cbn.
    rewrite Hf, Hr. reflexivity.
Qed.

Lemma IssuingDistributionPoint_accepts_both_names_witness :
  DistributionPoint.__init__ (H := example_names)
    (Some [DNSName "crl.example.com"]) (Some example_rdn) None None
  = Raise (ValueError
             "You cannot provide both full_name and relative_name, at least one must be None.")
  ∧ IssuingDistributionPoint.__init__ (H := example_names)
      (Some [DNSName "crl.example.com"]) (Some example_rdn)
      false false None false false
    = Return
        {| IssuingDistributionPoint._only_contains_user_certs := false;
           IssuingDistributionPoint._only_contains_ca_certs := false;
           IssuingDistributionPoint._indirect_crl := false;
           IssuingDistributionPoint._only_contains_attribute_certs := false;
           IssuingDistributionPoint._only_some_reasons := None;
           IssuingDistributionPoint._full_name :=
             Some [DNSName "crl.example.com"];
           IssuingDistributionPoint._relative_name := Some example_rdn |}.
Proof.
  apply (IssuingDistributionPoint_accepts_both_names (H := example_names)
           (Some [DNSName "crl.example.com"]) (Some example_rdn));
    reflexivity.
Defined.

(** ** NameConstraints: the constructor's contract *)

Section NameConstraints_contract.
Context `{NameModule}.

Lemma _validate_ip_name_Return (tree : list GeneralName) :
  NameConstraints._validate_ip_name tree = Return tt →
  Forall (fun name => ¬ NameConstraints.bare_address name) tree.
Proof.
  unfold NameConstraints._validate_ip_name.
  destruct (existsb _ tree) eqn:E; [discriminate|]. intros _.
  induction tree as [|name tree IH]; [constructor|].
  cbn in E. apply orb_false_iff in E as [Hname Htree].
  constructor; [|exact (IH Htree)].
  intros (value & -> & Hbare). rewrite Hbare in Hname. discriminate.
Qed.

End NameConstraints_contract.

(** X10. [NameConstraints] construction returns, with the value holding
    both arguments unchanged, exactly when each argument is [None] or a
    non-empty list in which no [IPAddress] carries a bare address, and the
    two are not both [None]. *)
Theorem NameConstraints_init_contract
    `{NameModule} (permitted_subtrees excluded_subtrees
                   : option (list GeneralName)) :
  NameConstraints.valid_subtrees permitted_subtrees
  ∧ NameConstraints.valid_subtrees excluded_subtrees
  ∧ (permitted_subtrees ≠ None ∨ excluded_subtrees ≠ None)
  ↔ NameConstraints.__init__ permitted_subtrees excluded_subtrees
    = Return {| NameConstraints._permitted_subtrees := permitted_subtrees;
                NameConstraints._excluded_subtrees := excluded_subtrees |}.
Proof.
  split.
  - intros (Hp & He & Hsome). apply NameConstraints_valid; assumption.
  - unfold NameConstraints.__init__.
    destruct permitted_subtrees as [[|p permitted]|],
      excluded_subtrees as [[|e excluded]|]; cbn; try discriminate.
    + destruct (NameConstraints._validate_ip_name (p :: permitted)) as [[]|]
        eqn:E; discriminate.
    + destruct (NameConstraints._validate_ip_name (p :: permitted)) as [[]|]
        eqn:Ep; cbn; [|discriminate].
      destruct (NameConstraints._validate_ip_name (e :: excluded)) as [[]|]
        eqn:Ee; cbn; [|discriminate].
      intros _. repeat split; try discriminate;
        [apply _validate_ip_name_Return, Ep
        |apply _validate_ip_name_Return, Ee | left; discriminate].
    + destruct (NameConstraints._validate_ip_name (p :: permitted)) as [[]|]
        eqn:Ep; cbn; [|discriminate].
      intros _. repeat split; try discriminate;
        [apply _validate_ip_name_Return, Ep | left; discriminate].
    + destruct (NameConstraints._validate_ip_name (e :: excluded)) as [[]|]
        eqn:Ee; cbn; [|discriminate].
      intros _. repeat split; try discriminate;
        [apply _validate_ip_name_Return, Ee | right; discriminate].
Qed.

(** ** BasicConstraints, PolicyConstraints, InhibitAnyPolicy *)

(** X11. [BasicConstraints] construction returns, with the value holding
    both arguments, exactly when [path_length] is [None], or [ca] is true
    and [path_length] is not negative.  A [path_length] with [ca] false is
    refused with [ValueError] whatever its sign; a negative [path_length]
    with [ca] true is refused with [TypeError]. *)
Theorem BasicConstraints_init_contract (ca : bool) (path_length : option Z) :
  (path_length = None ∨ (ca = true ∧ ∃ n, path_length = Some n ∧ (0 ≤ n)%Z)
   ↔ BasicConstraints.__init__ ca path_length
     = Return {| BasicConstraints._ca := ca;
                 BasicConstraints._path_length := path_length |})
  ∧ (path_length ≠ None → ca = false →
     BasicConstraints.__init__ ca path_length
     = Raise (ValueError "path_length must be None when ca is False"))
  ∧ (∀ n, path_length = Some n → ca = true → (n < 0)%Z →
     BasicConstraints.__init__ ca path_length
     = Raise (TypeError "path_length must be a non-negative integer or None")).
Proof.
  unfold BasicConstraints.__init__.
  destruct path_length as [n|], ca; cbn; (split; [|split]);
    try (intros; congruence); try (intros ? [= <-] ?).
  - destruct (Z.ltb_spec n 0); cbn; split; try discriminate;
      try (intros _; reflexivity).
    + intros [|(_ & m & [= <-] & Hm)]; [discriminate | lia].
    + intros _. right. split; [reflexivity|]. exists n. split; [reflexivity | lia].
  - intros Hneg. destruct (Z.ltb_spec n 0); [reflexivity | lia].
  - split; [intros [|(? & _)]; discriminate | discriminate].
  - split; [reflexivity | intros _; left; reflexivity].
  - split; [reflexivity | intros _; left; reflexivity].
Qed.

Lemma BasicConstraints_init_contract_witness :
  BasicConstraints.__init__ false (Some (-1)%Z)
  = Raise (ValueError "path_length must be None when ca is False")
  ∧ BasicConstraints.__init__ true (Some (-1)%Z)
    = Raise (TypeError "path_length must be a non-negative integer or None")
  ∧ BasicConstraints.__init__ true (Some 0%Z)
    = Return {| BasicConstraints._ca := true;
                BasicConstraints._path_length := Some 0%Z |}.
Proof.
  split; [|split].
  - apply (BasicConstraints_init_contract false (Some (-1)%Z));
      [discriminate | reflexivity].
  - destruct (BasicConstraints_init_contract true (Some (-1)%Z))
      as (_ & _ & Hneg).
    apply (Hneg (-1)%Z); [reflexivity | reflexivity | lia].
  - apply (BasicConstraints_init_contract true (Some 0%Z)).
    right. split; [reflexivity|]. exists 0%Z. split; [reflexivity | lia].
Defined.

(** X12. [PolicyConstraints] construction fails only when both arguments
    are [None]; every integer is accepted for either argument, negative
    ones included, and stored as given. *)
Theorem PolicyConstraints_init_contract
    (require_explicit_policy inhibit_policy_mapping : option Z) :
  (require_explicit_policy ≠ None ∨ inhibit_policy_mapping ≠ None
   ↔ PolicyConstraints.__init__ require_explicit_policy inhibit_policy_mapping
     = Return {| PolicyConstraints._require_explicit_policy :=
                   require_explicit_policy;
                 PolicyConstraints._inhibit_policy_mapping :=
                   inhibit_policy_mapping |})
  ∧ (require_explicit_policy = None → inhibit_policy_mapping = None →
     PolicyConstraints.__init__ require_explicit_policy inhibit_policy_mapping
     = Raise (ValueError
                "At least one of require_explicit_policy and inhibit_policy_mapping must not be None")).
Proof.
  unfold PolicyConstraints.__init__.
  destruct require_explicit_policy, inhibit_policy_mapping; cbn;
    (split; [split|]); try discriminate; try reflexivity;
    try (intros _; reflexivity); try (intros; congruence);
    try (intros _; left; discriminate); try (intros _; right; discriminate).
  intros [|]; congruence.
Qed.

Lemma PolicyConstraints_init_contract_witness :
  PolicyConstraints.__init__ (Some (-5)%Z) None
  = Return {| PolicyConstraints._require_explicit_policy := Some (-5)%Z;
              PolicyConstraints._inhibit_policy_mapping := None |}
  ∧ PolicyConstraints.__init__ None None
    = Raise (ValueError
               "At least one of require_explicit_policy and inhibit_policy_mapping must not be None").
Proof.
  split.
  - apply (PolicyConstraints_init_contract (Some (-5)%Z) None).
    left. discriminate.
  - apply (PolicyConstraints_init_contract None None); reflexivity.
Defined.

(** X13. [InhibitAnyPolicy] construction returns exactly for a
    [skip_certs] that is not negative, and refuses a negative one with
    [ValueError]; so every constructed value has [skip_certs >= 0]. *)
Theorem InhibitAnyPolicy_init_contract (skip_certs : Z) :
  ((0 ≤ skip_certs)%Z
   ↔ InhibitAnyPolicy.__init__ skip_certs
     = Return {| InhibitAnyPolicy._skip_certs := skip_certs |})
  ∧ ((skip_certs < 0)%Z →
     InhibitAnyPolicy.__init__ skip_certs
     = Raise (ValueError "skip_certs must be a non-negative integer"))
  ∧ (∀ v, InhibitAnyPolicy.__init__ skip_certs = Return v →
          InhibitAnyPolicy.skip_certs v = skip_certs
          ∧ (0 ≤ InhibitAnyPolicy.skip_certs v)%Z).
Proof.
  unfold InhibitAnyPolicy.__init__.
  destruct (Z.ltb_spec skip_certs 0); cbn; (split; [split|split]);
    try discriminate; try lia; try reflexivity; try (intros; reflexivity).
  intros v [= <-]. cbn. split; [reflexivity | lia].
Qed.

Lemma InhibitAnyPolicy_init_contract_witness :
  InhibitAnyPolicy.__init__ (-1)
  = Raise (ValueError "skip_certs must be a non-negative integer")
  ∧ InhibitAnyPolicy.skip_certs {| InhibitAnyPolicy._skip_certs := 3 |} = 3%Z
  ∧ (0 ≤ InhibitAnyPolicy.skip_certs {| InhibitAnyPolicy._skip_certs := 3 |})%Z.
Proof.
  split.
  - apply (InhibitAnyPolicy_init_contract (-1)). lia.
  - apply (InhibitAnyPolicy_init_contract 3). reflexivity.
Defined.

(** ** Key identifiers *)

(** X14. [AuthorityKeyIdentifier] construction returns, with the value
    holding the three arguments, exactly when [authority_cert_issuer] and
    [authority_cert_serial_number] are both [None] or both present;
    otherwise it raises [ValueError].  [key_identifier] is not
    constrained. *)
Theorem AuthorityKeyIdentifier_init_contract
    `{NameModule}
    (key_identifier : option (list Byte.byte))
    (authority_cert_issuer : option (list GeneralName))
    (authority_cert_serial_number : option Z) :
  ((authority_cert_issuer = None ↔ authority_cert_serial_number = None)
   ↔ AuthorityKeyIdentifier.__init__ key_identifier authority_cert_issuer
       authority_cert_serial_number
     = Return
         {| AuthorityKeyIdentifier._key_identifier := key_identifier;
            AuthorityKeyIdentifier._authority_cert_issuer :=
              authority_cert_issuer;
            AuthorityKeyIdentifier._authority_cert_serial_number :=
              authority_cert_serial_number |})
  ∧ (¬ (authority_cert_issuer = None ↔ authority_cert_serial_number = None)
     → AuthorityKeyIdentifier.__init__ key_identifier authority_cert_issuer
         authority_cert_serial_number
       = Raise (ValueError
                  "authority_cert_issuer and authority_cert_serial_number must both be present or both None")).
Proof.
  unfold AuthorityKeyIdentifier.__init__.
  destruct authority_cert_issuer, authority_cert_serial_number; cbn; split.
  - split; [intros _; reflexivity | intros _; split; discriminate].
  - intros Hn. exfalso. apply Hn. split; discriminate.
  - split; [intros [_ Hc]; discriminate (Hc eq_refl) | discriminate].
  - intros _. reflexivity.
  - split; [intros [Hc _]; discriminate (Hc eq_refl) | discriminate].
  - intros _. reflexivity.
  - split; [intros _; reflexivity | intros _; split; reflexivity].
  - intros Hn. exfalso. apply Hn. split; reflexivity.
Qed.

Lemma AuthorityKeyIdentifier_init_contract_witness :
  AuthorityKeyIdentifier.__init__ (H := example_names)
    (Some [Byte.x01]) (Some [DNSName "ca.example.com"]) None
  = Raise (ValueError
             "authority_cert_issuer and authority_cert_serial_number must both be present or both None").
Proof.
  apply (AuthorityKeyIdentifier_init_contract (H := example_names)
           (Some [Byte.x01]) (Some [DNSName "ca.example.com"]) None).
  intros [_ Hc]. discriminate (Hc eq_refl).
Defined.

(** X15. Deriving an authority key identifier from the issuer's public key
    is deriving the subject key identifier from that key and copying its
    digest: [from_issuer_public_key] is [from_public_key] followed by
    [from_issuer_subject_key_identifier], failures of the key serialization
    included; on success the value holds the digest as [key_identifier] and
    [None] for issuer and serial number. *)
Theorem from_issuer_public_key_via_subject_key_identifier
    `{NameModule} `{KeyModule} (public_key : PublicKey) :
  AuthorityKeyIdentifier.from_issuer_public_key public_key
  = (ski ← SubjectKeyIdentifier.from_public_key public_key;
     AuthorityKeyIdentifier.from_issuer_subject_key_identifier ski)
  ∧ (∀ ski, SubjectKeyIdentifier.from_public_key public_key = Return ski →
       AuthorityKeyIdentifier.from_issuer_public_key public_key
       = Return
           {| AuthorityKeyIdentifier._key_identifier :=
                Some (SubjectKeyIdentifier.digest ski);
              AuthorityKeyIdentifier._authority_cert_issuer := None;
              AuthorityKeyIdentifier._authority_cert_serial_number := None |})
  ∧ (∀ e, SubjectKeyIdentifier.from_public_key public_key = Raise e →
       AuthorityKeyIdentifier.from_issuer_public_key public_key = Raise e).
Proof.
  unfold AuthorityKeyIdentifier.from_issuer_public_key,
    SubjectKeyIdentifier.from_public_key,
    AuthorityKeyIdentifier.from_issuer_subject_key_identifier.
  destruct (_key_identifier_from_public_key public_key) as [digest|e]; cbn.
  - split; [reflexivity|]. split; [|discriminate].
    intros ski [= <-]. reflexivity.
  - split; [reflexivity|]. split; [discriminate|].
    intros e' [= <-]. reflexivity.
Qed.

Lemma from_issuer_public_key_via_subject_key_identifier_witness :
  let public_key : @PublicKey example_keys :=
    (kind_Ed25519, [Byte.x01; Byte.x02; Byte.x03]) in
  AuthorityKeyIdentifier.from_issuer_public_key
    (H := example_names) (H0 := example_keys) public_key
  = Return
      {| AuthorityKeyIdentifier._key_identifier :=
           Some [Byte.x03; Byte.x02; Byte.x01];
         AuthorityKeyIdentifier._authority_cert_issuer := None;
         AuthorityKeyIdentifier._authority_cert_serial_number := None |}.
Proof.
  intros public_key.
  destruct (from_issuer_public_key_via_subject_key_identifier
              (H := example_names) (H0 := example_keys) public_key)
    as (_ & Hski & _).
  apply (Hski {| SubjectKeyIdentifier._digest :=
                   [Byte.x03; Byte.x02; Byte.x01] |}).
  reflexivity.
Defined.

(** ** The lists [get_values_for_type] returns *)

Section values_shape.
Context `{NameModule}.
Implicit Types (names : list GeneralName) (type : cls.general_name).

Lemma spec_get_values_for_type_overloads names type :
  Forall (overload_element type)
    (GeneralNames.spec_get_values_for_type names type).
Proof.
  induction names as [|i names IH]; cbn; [constructor|].
  apply Forall_app. split; [|exact IH].
  destruct type, i; cbn; repeat constructor.
Qed.

Lemma spec_get_values_for_type_length names type :
  length (GeneralNames.spec_get_values_for_type names type)
  = length (List.filter (fun i => bool_decide (GeneralName_type i = type))
              names).
Proof.
  induction names as [|i names IH]; cbn; [reflexivity|].
  rewrite length_app, IH. destruct type, i; reflexivity.
Qed.

Lemma spec_get_values_for_type_partition names :
  length (GeneralNames.spec_get_values_for_type names cls.DNSName)
  + length (GeneralNames.spec_get_values_for_type names cls.RFC822Name)
  + length (GeneralNames.spec_get_values_for_type names
              cls.UniformResourceIdentifier)
  + length (GeneralNames.spec_get_values_for_type names cls.DirectoryName)
  + length (GeneralNames.spec_get_values_for_type names cls.RegisteredID)
  + length (GeneralNames.spec_get_values_for_type names cls.IPAddress)
  + length (GeneralNames.spec_get_values_for_type names cls.OtherName)
  = length names.
Proof.
  induction names as [|i names IH]; cbn; [reflexivity|].
  rewrite !length_app. destruct i; cbn; lia.
Qed.

End values_shape.

(** X16. The list [get_values_for_type] returns has the element type its
    overloads declare: strings for [DNSName], [RFC822Name] and
    [UniformResourceIdentifier], names for [DirectoryName], object
    identifiers for [RegisteredID], addresses or networks for [IPAddress],
    [OtherName] objects for [OtherName]; and it has one element per
    element of the sequence that is of the class asked for, so never more
    elements than the sequence. *)
Theorem get_values_for_type_overloads
    `{NameModule} (self : GeneralNames.t) (type : cls.general_name) :
  Forall (overload_element type) (GeneralNames.get_values_for_type self type)
  ∧ length (GeneralNames.get_values_for_type self type)
    = length (List.filter
                (fun i => bool_decide (GeneralName_type i = type))
                (GeneralNames.__iter__ self))
  ∧ (length (GeneralNames.get_values_for_type self type)
     ≤ GeneralNames.__len__ self)%nat.
Proof.
  destruct self as [names].
  rewrite get_values_for_type_refines. cbn.
  split; [apply spec_get_values_for_type_overloads|].
  rewrite spec_get_values_for_type_length. split; [reflexivity|].
  unfold GeneralNames.__len__; cbn. apply List.filter_length_le.
Qed.

(** X17. A [SubjectAlternativeName] is always constructed from a list of
    general names, iterates over that list in its order, and its
    [get_values_for_type] splits it: the lengths of the lists returned for
    the seven classes add up to the length of the extension. *)
Theorem SubjectAlternativeName_values_partition
    `{NameModule} (general_names : list GeneralName) :
  ∃ san,
    SubjectAlternativeName.__init__ general_names = Return san
    ∧ SubjectAlternativeName.__iter__ san = general_names
    ∧ length (SubjectAlternativeName.get_values_for_type san cls.DNSName)
      + length (SubjectAlternativeName.get_values_for_type san cls.RFC822Name)
      + length (SubjectAlternativeName.get_values_for_type san
                  cls.UniformResourceIdentifier)
      + length (SubjectAlternativeName.get_values_for_type san
                  cls.DirectoryName)
      + length (SubjectAlternativeName.get_values_for_type san
                  cls.RegisteredID)
      + length (SubjectAlternativeName.get_values_for_type san cls.IPAddress)
      + length (SubjectAlternativeName.get_values_for_type san cls.OtherName)
      = SubjectAlternativeName.__len__ san.
Proof.
  eexists. split; [reflexivity|]. split; [reflexivity|].
  unfold SubjectAlternativeName.get_values_for_type,
    SubjectAlternativeName.__len__, GeneralNames.__len__; cbn.
  rewrite !get_values_for_type_refines.
  apply spec_get_values_for_type_partition.
Qed.
